(** * Simulated fund trading: the portfolio ledger and the fund catalog

    A shallow embedding of [store/simulationStore.ts] (the ledger: buyFund,
    sellFund, updatePrices, resetAccount) and of [store/fundStore.ts] with
    [lib/fundApi] (the catalog: getFundList, loadPopularFunds, getAllFunds),
    followed by the properties of the portfolio accounting engine.

    Numbers.  A JavaScript [number] is modelled by an exact rational [Q]:
    [+ - * /] are the field operations, [===] on numbers is [Qeq_bool], [>]
    and [<=] are the order of [Q].  Rounding, NaN and the infinities are not
    modelled; a division by zero, which JavaScript answers with NaN or an
    infinity, is the total division of [Q].  Equalities between computed
    numbers are stated with [==] ([Qeq]).  Where rounding decides,
    [buyFund] and [sellFund] are taken once more on IEEE 754 binary64
    numbers (module [Double]).

    Effects.  The zustand store holds one account; an action reads it with
    [get()] and replaces it with [set(...)].  Each action is a function of
    the account it reads, and returns an outcome that names the exit it took
    and carries the account handed to [set] when that call is reached.
    [Date.now()], [new Date()], [Math.random()] and the reply of [fetch]
    are inputs. *)

From Stdlib Require Import QArith Qround Qabs ZArith List String Ascii Bool.
From Stdlib Require Import Floats.
From Stdlib Require Import Lia Lqa.
Import ListNotations.

(** A decimal literal of binary64 stands for the nearest binary64. *)
Set Warnings "-inexact-float".

Open Scope Q_scope.

(** ** JavaScript numbers and arrays *)

Definition number := Q.

(** [x > y] *)
Definition gtNum (x y : number) : bool := negb (Qle_bool x y).

(** [x <= y] *)
Definition leNum (x y : number) : bool := Qle_bool x y.

(** [x === y] on numbers *)
Definition strictEq (x y : number) : bool := Qeq_bool x y.

(** [arr.map(f)] where [f] also draws on the index of the element *)
Fixpoint mapi_from {A B : Type} (i : nat) (f : nat -> A -> B) (l : list A)
  : list B :=
  match l with
  | [] => []
  | x :: l' => f i x :: mapi_from (S i) f l'
  end.

Definition mapi {A B : Type} (f : nat -> A -> B) (l : list A) : list B :=
  mapi_from 0 f l.

(** The character of one decimal digit. *)
Definition digit (d : Z) : string :=
  String (ascii_of_nat (48 + Z.to_nat d)) EmptyString.

(** The decimal digits of a non-negative integer, most significant first;
    each round of [fuel] emits one digit. *)
Fixpoint decimalFuel (fuel : nat) (n : Z) : string :=
  match fuel with
  | O => EmptyString
  | S fuel' =>
    if (n <? 10)%Z then digit n
    else (decimalFuel fuel' (n / 10) ++ digit (n mod 10))%string
  end.

(** [n] has at most [log2 n + 1] decimal digits. *)
Definition decimal (n : Z) : string :=
  decimalFuel (S (Z.to_nat (Z.log2 n))) n.

(** [Date.now().toString()]: the decimal digits of a millisecond count *)
Definition toString (ms : Z) : string :=
  if (ms <? 0)%Z then ("-" ++ decimal (- ms))%string else decimal ms.

(** ** Data model of the ledger *)

Inductive FundType := stock | bond | mix | money | index.

Definition fundTypeName (t : FundType) : string :=
  match t with
  | stock => "stock" | bond => "bond" | mix => "mix"
  | money => "money" | index => "index"
  end.

Module MockFund.
Record t := mk {
  code : string;
  name : string;
  type : FundType;
  price : number
}.
End MockFund.

Module Position.
Record t := mk {
  id : string;
  fundCode : string;
  fundName : string;
  fundType : FundType;
  shares : number;
  totalCost : number;
  avgCost : number;
  currentPrice : number;
  profitLoss : number;
  profitLossPercent : number;
  marketValue : number
}.
End Position.

Inductive TransactionType := buy | sell.
Inductive SellType := partial | full.

Module Transaction.
Record t := mk {
  id : string;
  fundCode : string;
  fundName : string;
  fundType : string;
  type : TransactionType;
  sellType : option SellType;
  shares : number;
  price : number;
  totalAmount : number;
  createdAt : Z
}.
End Transaction.

Module SimulationAccount.
Record t := mk {
  totalAssets : number;
  cashBalance : number;
  profitLoss : number;
  profitLossPercent : number;
  positions : list Position.t;
  transactions : list Transaction.t
}.
End SimulationAccount.

Definition Account : Type := SimulationAccount.t.

Definition mockFunds : list MockFund.t :=
  [ MockFund.mk "F001" "成长优选混合" mix 2.456;
    MockFund.mk "F002" "稳健债券A" bond 1.234;
    MockFund.mk "F003" "科技先锋股票" stock 3.789;
    MockFund.mk "F004" "沪深300指数" index 1.876;
    MockFund.mk "F005" "货币增强" money 1.023;
    MockFund.mk "F006" "消费主题混合" mix 2.123;
    MockFund.mk "F007" "价值精选股票" stock 1.987;
    MockFund.mk "F008" "新能源指数" index 1.543 ]%string.

Definition initialState : Account :=
  SimulationAccount.mk 100000 100000 0 0 [] [].

(** The readings of the clock taken during one action: [Date.now()] for the
    id of a new position, [Date.now()] for the id of the transaction and
    [new Date()] for its creation time. *)
Record Clock := {
  positionNow : Z;
  transactionNow : Z;
  createdNow : Z
}.

(** [funds.find((f) => f.code === fundCode)] *)
Definition findFund (funds : list MockFund.t) (fundCode : string)
  : option MockFund.t :=
  find (fun f => String.eqb (MockFund.code f) fundCode) funds.

(** [positions.find((p) => p.fundCode === fundCode)] *)
Definition findPosition (positions : list Position.t) (fundCode : string)
  : option Position.t :=
  find (fun p => String.eqb (Position.fundCode p) fundCode) positions.

(** [positions.reduce((sum, p) => sum + p.marketValue, 0)] *)
Definition sumMarketValue (positions : list Position.t) : number :=
  fold_left (fun sum p => sum + Position.marketValue p) positions 0.

(** ** buyFund *)

(** The three exits of [buyFund]: the fund is unknown and the action returns;
    the cash does not cover the amount, the action alerts and returns; the
    action reaches [set] with a new account. *)
Inductive BuyOutcome :=
| BuyUnknownFund
| BuyAlert (message : string)
| BuySet (account' : Account).

(** The position [p] after more shares of its fund were bought:
    [{ ...p, shares, totalCost, avgCost, currentPrice, marketValue,
    profitLoss, profitLossPercent }]. *)
Definition boughtMore (fund : MockFund.t)
    (totalShares newTotalCost newAvgCost : number) (p : Position.t)
  : Position.t :=
  Position.mk (Position.id p) (Position.fundCode p) (Position.fundName p)
    (Position.fundType p)
    totalShares
    newTotalCost
    newAvgCost
    (MockFund.price fund)
    (totalShares * MockFund.price fund - newTotalCost)
    ((MockFund.price fund - newAvgCost) / newAvgCost * 100)
    (totalShares * MockFund.price fund).

(** [buyFund] over a table of funds; the store's action reads [mockFunds]. *)
Definition buyFundIn (funds : list MockFund.t) (clock : Clock)
    (fundCode : string) (shares : number) (account : Account) : BuyOutcome :=
  match findFund funds fundCode with
  | None => BuyUnknownFund
  | Some fund =>
    let totalAmount := shares * MockFund.price fund in
    if gtNum totalAmount (SimulationAccount.cashBalance account) then
      BuyAlert "现金余额不足！"
    else
      let existingPosition :=
        findPosition (SimulationAccount.positions account) fundCode in
      let newPositions :=
        match existingPosition with
        | Some existingPosition =>
          let newTotalCost :=
            Position.totalCost existingPosition + MockFund.price fund * shares in
          let totalShares := Position.shares existingPosition + shares in
          let newAvgCost := newTotalCost / totalShares in
          map (fun p =>
                 if String.eqb (Position.fundCode p) fundCode
                 then boughtMore fund totalShares newTotalCost newAvgCost p
                 else p)
              (SimulationAccount.positions account)
        | None =>
          let newTotalCost := MockFund.price fund * shares in
          let newAvgCost := MockFund.price fund in
          let newPosition :=
            Position.mk (toString (positionNow clock))
              (MockFund.code fund) (MockFund.name fund) (MockFund.type fund)
              shares newTotalCost newAvgCost (MockFund.price fund)
              0 0 (shares * MockFund.price fund) in
          SimulationAccount.positions account ++ [newPosition]
        end in
      let newTransaction :=
        Transaction.mk (toString (transactionNow clock))
          (MockFund.code fund) (MockFund.name fund)
          (fundTypeName (MockFund.type fund))
          buy None shares (MockFund.price fund) totalAmount
          (createdNow clock) in
      let newCashBalance :=
        SimulationAccount.cashBalance account - totalAmount in
      let newTotalAssets := sumMarketValue newPositions + newCashBalance in
      BuySet
        (SimulationAccount.mk
           newTotalAssets
           newCashBalance
           (newTotalAssets - 100000)
           ((newTotalAssets - 100000) / 100000 * 100)
           newPositions
           (newTransaction :: SimulationAccount.transactions account))
  end.

Definition buyFund : Clock -> string -> number -> Account -> BuyOutcome :=
  buyFundIn mockFunds.

(** ** The fund catalog: lib/fundApi and store/fundStore *)

Module Catalog.

Module FundInfo.
Record t := mk {
  code : string;
  name : string;
  type : string;
  company : string;
  value : number;
  day_growth : number;
  week_growth : option number;
  month_growth : option number;
  year_growth : option number
}.
End FundInfo.

(** [type] is a union of five literals for the type checker; the value
    that arrives from the list provider is cast and not checked, so it is
    any string. *)
Module Fund.
Record t := mk {
  code : string;
  name : string;
  type : string;
  company : option string;
  price : number;
  dayGrowth : number
}.
End Fund.

Record FundStore := {
  popularFunds : list Fund.t;
  customFunds : list Fund.t;
  allFunds : list Fund.t;
  isLoading : bool
}.

Definition mockFunds : list Fund.t :=
  [ Fund.mk "000001" "华夏成长混合" "mix" None 1.234 0.5;
    Fund.mk "110022" "易方达消费行业股票" "stock" None 2.456 1.2;
    Fund.mk "161725" "招商中证白酒指数" "index" None 1.567 (-0.3);
    Fund.mk "270002" "广发稳健增长混合" "mix" None 1.876 0.8;
    Fund.mk "519732" "交银定期支付双息平衡混合" "mix" None 1.543 0.2;
    Fund.mk "001618" "天弘中证电子ETF联接A" "index" None 1.234 0.6;
    Fund.mk "005827" "易方达蓝筹精选混合" "mix" None 1.987 1.5;
    Fund.mk "161025" "招商国证生物医药指数" "index" None 1.321 (-0.5) ]%string.

Definition initialStore : FundStore :=
  {| popularFunds := mockFunds;
     customFunds := [];
     allFunds := mockFunds;
     isLoading := false |}.

(** What [fetch] of the list endpoint comes to: the promise rejects, or
    it yields a response with its [ok] flag and the outcome of
    [response.json()], [None] when the body does not parse; or it yields a
    response whose body parses to a JSON value that is not an array (an
    object, a string, a number, [null]), which the cast to [FundInfo[]]
    lets through unchecked. *)
Inductive Fetched :=
| FetchRejected
| FetchResponse (ok : bool) (json : option (list FundInfo.t))
| FetchOther (ok : bool).

(** How a promise settles. *)
Inductive Settled (A : Type) :=
| Fulfilled (a : A)
| Rejected.
Arguments Fulfilled {A} a.
Arguments Rejected {A}.

(** The provider call failed: [fetch] rejected, the status was not ok, or
    the body was not JSON. *)
Definition providerFailed (fetched : Fetched) : bool :=
  match fetched with
  | FetchResponse true (Some _) => false
  | FetchOther true => false
  | _ => true
  end.

(** [getFundList]: how the promise settles and the lines written with
    [console.error].  The value is what [response.json()] gave, [None]
    where it is not an array. *)
Definition getFundList (fetched : Fetched)
  : Settled (option (list FundInfo.t)) * list string :=
  match fetched with
  | FetchResponse true (Some funds) => (Fulfilled (Some funds), [])
  | FetchOther true => (Fulfilled None, [])
  | _ => (Fulfilled (Some []), ["获取基金列表失败:"%string])
  end.

(** [map.set(key, value)] on a [Map] kept in insertion order: a key that
    is present keeps its place and takes the new value. *)
Fixpoint mapSet (key : string) (value : Fund.t) (m : list (string * Fund.t))
  : list (string * Fund.t) :=
  match m with
  | [] => [(key, value)]
  | (k, v) :: m' =>
    if String.eqb k key then (k, value) :: m'
    else (k, v) :: mapSet key value m'
  end.

(** [getAllFunds]: the store after [set({ allFunds })] and the value
    returned. *)
Definition getAllFunds (store : FundStore) : FundStore * list Fund.t :=
  let allFundsMap :=
    fold_left (fun m fund => mapSet (Fund.code fund) fund m)
              (popularFunds store) [] in
  let allFundsMap :=
    fold_left (fun m fund => mapSet (Fund.code fund) fund m)
              (customFunds store) allFundsMap in
  let allFunds := map snd allFundsMap in
  ({| popularFunds := popularFunds store;
      customFunds := customFunds store;
      allFunds := allFunds;
      isLoading := isLoading store |},
   allFunds).

(** The fund made of one entry of the provider's list. *)
Definition convert (f : FundInfo.t) : Fund.t :=
  Fund.mk (FundInfo.code f) (FundInfo.name f) (FundInfo.type f)
    (Some (FundInfo.company f)) (FundInfo.value f) (FundInfo.day_growth f).

(** [set({ isLoading })] *)
Definition setIsLoading (b : bool) (store : FundStore) : FundStore :=
  {| popularFunds := popularFunds store;
     customFunds := customFunds store;
     allFunds := allFunds store;
     isLoading := b |}.

(** [set({ popularFunds })] *)
Definition setPopularFunds (funds : list Fund.t) (store : FundStore)
  : FundStore :=
  {| popularFunds := funds;
     customFunds := customFunds store;
     allFunds := allFunds store;
     isLoading := isLoading store |}.

(** What the caller of [loadPopularFunds] observes: the store when the
    returned promise has settled, how it settled, and the console. *)
Record Loaded := {
  store' : FundStore;
  settled : Settled unit;
  console : list string
}.

(** [loadPopularFunds]: the [try] body when [getFundList] fulfils with an
    array; the [catch] block, which leaves the popular funds as they are,
    when it rejects or when it fulfils with a value that is not an array,
    on which [funds.map] raises a TypeError; and [finally] the loading flag
    cleared. *)
Definition loadPopularFunds (fetched : Fetched) (store : FundStore) : Loaded :=
  let store := setIsLoading true store in
  match getFundList fetched with
  | (Fulfilled (Some funds), lines) =>
    let convertedFunds := map convert funds in
    let store := setPopularFunds convertedFunds store in
    let store := fst (getAllFunds store) in
    {| store' := setIsLoading false store;
       settled := Fulfilled tt;
       console := lines |}
  | (Fulfilled None, lines)
  | (Rejected, lines) =>
    {| store' := setIsLoading false store;
       settled := Fulfilled tt;
       console := lines ++ ["加载热门基金失败:"%string] |}
  end.

(** *** Quotes, custom funds and price refresh *)

Module FundQuote.
Record t := mk {
  code : string;
  name : string;
  value : number;
  day_growth : number;
  value_date : string;
  timestamp : string
}.
End FundQuote.

(** What [fetch] of an endpoint that answers with an [A] comes to. *)
Inductive Reply (A : Type) :=
| ReplyRejected
| ReplyResponse (ok : bool) (json : option A).
Arguments ReplyRejected {A}.
Arguments ReplyResponse {A} ok json.

(** [getFundQuote]: [null] on any failure, with a line on the console. *)
Definition getFundQuote (reply : Reply FundQuote.t)
  : Settled (option FundQuote.t) * list string :=
  match reply with
  | ReplyResponse true (Some quote) => (Fulfilled (Some quote), [])
  | _ => (Fulfilled None, ["获取基金报价失败:"%string])
  end.

(** [set({ customFunds })] *)
Definition setCustomFunds (funds : list Fund.t) (store : FundStore)
  : FundStore :=
  {| popularFunds := popularFunds store;
     customFunds := funds;
     allFunds := allFunds store;
     isLoading := isLoading store |}.

(** [funds.find((f) => f.code === code)] *)
Definition lookup (code : string) (funds : list Fund.t) : option Fund.t :=
  find (fun f => String.eqb (Fund.code f) code) funds.

(** What the caller of [addCustomFund] observes: the store, the value the
    promise fulfils with ([None] for [null]), the alerts and the console. *)
Record Added := {
  addedStore : FundStore;
  returned : option Fund.t;
  alerts : list string;
  addedConsole : list string
}.

(** [addCustomFund(code)], given the reply to the quote request. *)
Definition addCustomFund (reply : Reply FundQuote.t) (code : string)
    (store : FundStore) : Added :=
  match getFundQuote reply with
  | (Fulfilled None, lines) =>
    {| addedStore := store;
       returned := None;
       alerts := ["获取基金信息失败，请检查基金代码"%string];
       addedConsole := lines |}
  | (Fulfilled (Some quote), lines) =>
    let newFund :=
      Fund.mk (FundQuote.code quote) (FundQuote.name quote) "mix" None
        (FundQuote.value quote) (FundQuote.day_growth quote) in
    let store :=
      match lookup code (customFunds store) with
      | None =>
        fst (getAllFunds
               (setCustomFunds (customFunds store ++ [newFund]) store))
      | Some _ => store
      end in
    {| addedStore := store;
       returned := Some newFund;
       alerts := [];
       addedConsole := lines |}
  | (Rejected, lines) =>
    {| addedStore := store;
       returned := None;
       alerts := ["添加基金失败，请稍后重试"%string];
       addedConsole := lines ++ ["添加基金失败:"%string] |}
  end.

(** [{ ...f, price: quote.value, dayGrowth: quote.day_growth }] for the
    funds of the code, the others as they are. *)
Definition refreshed (quote : FundQuote.t) (code : string) (f : Fund.t)
  : Fund.t :=
  if String.eqb (Fund.code f) code then
    Fund.mk (Fund.code f) (Fund.name f) (Fund.type f) (Fund.company f)
      (FundQuote.value quote) (FundQuote.day_growth quote)
  else f.

(** [updateFundPrice(code)], given the reply to the quote request: the
    store when the promise has settled, and the console. *)
Definition updateFundPrice (reply : Reply FundQuote.t) (code : string)
    (store : FundStore) : FundStore * list string :=
  match getFundQuote reply with
  | (Fulfilled None, lines) => (store, lines)
  | (Fulfilled (Some quote), lines) =>
    let updatedPopular := map (refreshed quote code) (popularFunds store) in
    let updatedCustom := map (refreshed quote code) (customFunds store) in
    let store :=
      {| popularFunds := updatedPopular;
         customFunds := updatedCustom;
         allFunds := allFunds store;
         isLoading := isLoading store |} in
    (fst (getAllFunds store), lines)
  | (Rejected, lines) => (store, lines ++ ["更新基金价格失败:"%string])
  end.

(** *** Notions the properties of the catalog are stated with *)

(** The last fund of a list that carries the code. *)
Definition lastWith (code : string) (funds : list Fund.t) : option Fund.t :=
  lookup code (rev funds).

(** The elements of [l] that are not in [seen], each once, in the order of
    their first occurrence. *)
Fixpoint firstSeen (seen l : list string) : list string :=
  match l with
  | [] => []
  | x :: rest =>
    if existsb (String.eqb x) seen then firstSeen seen rest
    else x :: firstSeen (x :: seen) rest
  end.

Definition distinct (l : list string) : list string := firstSeen [] l.

(** Two funds that differ at most in price and day growth. *)
Definition sameFund (f f' : Fund.t) : Prop :=
  Fund.code f' = Fund.code f /\ Fund.name f' = Fund.name f /\
  Fund.type f' = Fund.type f /\ Fund.company f' = Fund.company f.

(** The fund [f'] is [f] under a price refresh of [code] by [quote]. *)
Definition refreshOf (quote : FundQuote.t) (code : string) (f f' : Fund.t)
  : Prop :=
  sameFund f f' /\
  (Fund.code f = code ->
   Fund.price f' = FundQuote.value quote /\
   Fund.dayGrowth f' = FundQuote.day_growth quote) /\
  (Fund.code f <> code -> f' = f).

(** The merged view [getAllFunds] computes from the two lists. *)
Definition mergedView (popular custom : list Fund.t) : list Fund.t :=
  map snd
      (fold_left (fun m fund => mapSet (Fund.code fund) fund m) custom
         (fold_left (fun m fund => mapSet (Fund.code fund) fund m) popular [])).

(** [map.get(key)] *)
Definition entry (key : string) (m : list (string * Fund.t)) : option Fund.t :=
  option_map snd (find (fun kv => String.eqb (fst kv) key) m).

(** Every key of the map is the code of its fund. *)
Definition keyed (m : list (string * Fund.t)) : Prop :=
  Forall (fun kv => fst kv = Fund.code (snd kv)) m.

(** A quote for the fund 110022. *)
Definition quote110022 : FundQuote.t :=
  FundQuote.mk "110022" "易方达消费行业股票" 2.5 0.7 "2024-01-02" "09:30".

(** A store whose custom funds already hold the code 110022. *)
Definition customStore : FundStore :=
  addedStore
    (addCustomFund (ReplyResponse true (Some quote110022)) "110022"
                   initialStore).

End Catalog.

(** ** components/SellDialog: the state of the dialog and its handlers *)

Module SellDialog.

Inductive MessageType := success | error.

Record Message := {
  type : MessageType;
  text : string
}.

(** What [onConfirm] returns: [{ success: boolean; message?: string }]. *)
Record Confirmed := {
  succeeded : bool;
  message : option string
}.

(** The three [useState] cells of the dialog. *)
Record State := {
  shares : number;
  sliderValue : number;
  shown : option Message
}.

(** [Math.floor(position.shares)] *)
Definition maxShares (position : Position.t) : number :=
  inject_Z (Qfloor (Position.shares position)).

Definition handleSliderChange (value : number) (state : State) : State :=
  {| shares := value; sliderValue := value; shown := shown state |}.

Definition handleQuickSelect (position : Position.t) (percent : number)
    (state : State) : State :=
  let value := inject_Z (Qfloor (maxShares position * percent)) in
  {| shares := value; sliderValue := value; shown := shown state |}.

(** [m || fallback] on an optional string: the empty string is falsy. *)
Definition orElse (m : option string) (fallback : string) : string :=
  match m with
  | Some (String c rest) => String c rest
  | _ => fallback
  end.

(** What [handleConfirm] leaves: the state of the dialog, the world the
    callback acts on, and whether [onClose] was scheduled. *)
Record Handled (W : Type) := {
  state' : State;
  world' : W;
  closing : bool
}.
Arguments state' {W} _.
Arguments world' {W} _.
Arguments closing {W} _.

(** [handleConfirm], with [onConfirm] acting on a world [W]; the callback
    yields [None] when it throws, and the exception leaves the handler. *)
Definition handleConfirm {W : Type}
    (onConfirm : number -> W -> W * option Confirmed)
    (state : State) (world : W) : Handled W :=
  if leNum (shares state) 0 then
    {| state' :=
         {| shares := shares state;
            sliderValue := sliderValue state;
            shown := Some {| type := error; text := "请先选择卖出份额" |} |};
       world' := world;
       closing := false |}
  else
    match onConfirm (shares state) world with
    | (world1, Some result) =>
      if succeeded result then
        {| state' :=
             {| shares := shares state;
                sliderValue := sliderValue state;
                shown :=
                  Some {| type := success;
                          text := orElse (message result) "卖出成功！" |} |};
           world' := world1;
           closing := true |}
      else
        {| state' :=
             {| shares := shares state;
                sliderValue := sliderValue state;
                shown :=
                  Some {| type := error;
                          text := orElse (message result) "卖出失败" |} |};
           world' := world1;
           closing := false |}
    | (world1, None) =>
      {| state' := state; world' := world1; closing := false |}
    end.

(** The dialog as it opens: no shares chosen, no message. *)
Definition opened : State :=
  {| shares := 0; sliderValue := 0; shown := None |}.

End SellDialog.

(** ** The ledger on binary64

    [buyFund] and [sellFund] once more, with a JavaScript [number] as what
    it is when the code runs, an IEEE 754 binary64: [+ - * /] round to the
    nearest, ties to even, [===], [>] and [<=] are the comparisons of the
    standard, and a decimal literal stands for the binary64 nearest to it,
    as it does in the source.  The properties on which rounding decides are
    stated here. *)

Module Double.

Local Open Scope float_scope.

Definition number := float.

(** [x > y] *)
Definition gtNum (x y : number) : bool := y <? x.

(** [x <= y] *)
Definition leNum (x y : number) : bool := x <=? y.

(** [x === y] on numbers *)
Definition strictEq (x y : number) : bool := x =? y.

Module MockFund.
Record t := mk {
  code : string;
  name : string;
  type : FundType;
  price : number
}.
End MockFund.

Module Position.
Record t := mk {
  id : string;
  fundCode : string;
  fundName : string;
  fundType : FundType;
  shares : number;
  totalCost : number;
  avgCost : number;
  currentPrice : number;
  profitLoss : number;
  profitLossPercent : number;
  marketValue : number
}.
End Position.

Module Transaction.
Record t := mk {
  id : string;
  fundCode : string;
  fundName : string;
  fundType : string;
  type : TransactionType;
  sellType : option SellType;
  shares : number;
  price : number;
  totalAmount : number;
  createdAt : Z
}.
End Transaction.

Module SimulationAccount.
Record t := mk {
  totalAssets : number;
  cashBalance : number;
  profitLoss : number;
  profitLossPercent : number;
  positions : list Position.t;
  transactions : list Transaction.t
}.
End SimulationAccount.

Definition Account : Type := SimulationAccount.t.

Definition mockFunds : list MockFund.t :=
  [ MockFund.mk "F001" "成长优选混合" mix 2.456;
    MockFund.mk "F002" "稳健债券A" bond 1.234;
    MockFund.mk "F003" "科技先锋股票" stock 3.789;
    MockFund.mk "F004" "沪深300指数" index 1.876;
    MockFund.mk "F005" "货币增强" money 1.023;
    MockFund.mk "F006" "消费主题混合" mix 2.123;
    MockFund.mk "F007" "价值精选股票" stock 1.987;
    MockFund.mk "F008" "新能源指数" index 1.543 ]%string.

Definition initialState : Account :=
  SimulationAccount.mk 100000 100000 0 0 [] [].

(** [mockFunds.find((f) => f.code === fundCode)] *)
Definition findFund (fundCode : string) : option MockFund.t :=
  find (fun f => String.eqb (MockFund.code f) fundCode) mockFunds.

(** [positions.find((p) => p.fundCode === fundCode)] *)
Definition findPosition (positions : list Position.t) (fundCode : string)
  : option Position.t :=
  find (fun p => String.eqb (Position.fundCode p) fundCode) positions.

(** [positions.reduce((sum, p) => sum + p.marketValue, 0)] *)
Definition sumMarketValue (positions : list Position.t) : number :=
  fold_left (fun sum p => sum + Position.marketValue p) positions 0.

Inductive BuyOutcome :=
| BuyUnknownFund
| BuyAlert (message : string)
| BuySet (account' : Account).

Definition boughtMore (fund : MockFund.t)
    (totalShares newTotalCost newAvgCost : number) (p : Position.t)
  : Position.t :=
  Position.mk (Position.id p) (Position.fundCode p) (Position.fundName p)
    (Position.fundType p)
    totalShares
    newTotalCost
    newAvgCost
    (MockFund.price fund)
    (totalShares * MockFund.price fund - newTotalCost)
    ((MockFund.price fund - newAvgCost) / newAvgCost * 100)
    (totalShares * MockFund.price fund).

Definition buyFund (clock : Clock) (fundCode : string) (shares : number)
    (account : Account) : BuyOutcome :=
  match findFund fundCode with
  | None => BuyUnknownFund
  | Some fund =>
    let totalAmount := shares * MockFund.price fund in
    if gtNum totalAmount (SimulationAccount.cashBalance account) then
      BuyAlert "现金余额不足！"
    else
      let existingPosition :=
        findPosition (SimulationAccount.positions account) fundCode in
      let newPositions :=
        match existingPosition with
        | Some existingPosition =>
          let newTotalCost :=
            Position.totalCost existingPosition + MockFund.price fund * shares in
          let totalShares := Position.shares existingPosition + shares in
          let newAvgCost := newTotalCost / totalShares in
          map (fun p =>
                 if String.eqb (Position.fundCode p) fundCode
                 then boughtMore fund totalShares newTotalCost newAvgCost p
                 else p)
              (SimulationAccount.positions account)
        | None =>
          let newTotalCost := MockFund.price fund * shares in
          let newAvgCost := MockFund.price fund in
          let newPosition :=
            Position.mk (toString (positionNow clock))
              (MockFund.code fund) (MockFund.name fund) (MockFund.type fund)
              shares newTotalCost newAvgCost (MockFund.price fund)
              0 0 (shares * MockFund.price fund) in
          SimulationAccount.positions account ++ [newPosition]
        end in
      let newTransaction :=
        Transaction.mk (toString (transactionNow clock))
          (MockFund.code fund) (MockFund.name fund)
          (fundTypeName (MockFund.type fund))
          buy None shares (MockFund.price fund) totalAmount
          (createdNow clock) in
      let newCashBalance :=
        SimulationAccount.cashBalance account - totalAmount in
      let newTotalAssets := sumMarketValue newPositions + newCashBalance in
      BuySet
        (SimulationAccount.mk
           newTotalAssets
           newCashBalance
           (newTotalAssets - 100000)
           ((newTotalAssets - 100000) / 100000 * 100)
           newPositions
           (newTransaction :: SimulationAccount.transactions account))
  end.

Record SellResult := {
  success : bool;
  message : string
}.

Inductive SellOutcome :=
| SellRefused (result : SellResult)
| SellSet (account' : Account) (result : SellResult)
| SellTypeError.

Definition soldSome (fund : MockFund.t) (newShares newTotalCost : number)
    (p : Position.t) : Position.t :=
  Position.mk (Position.id p) (Position.fundCode p) (Position.fundName p)
    (Position.fundType p)
    newShares
    newTotalCost
    (newTotalCost / newShares)
    (MockFund.price fund)
    (newShares * MockFund.price fund - newTotalCost)
    ((MockFund.price fund - newTotalCost / newShares)
       / (newTotalCost / newShares) * 100)
    (newShares * MockFund.price fund).

(** [sellFund]; [toFixed2] stands for [Number.prototype.toFixed] at two
    digits, which only the text of one refusal draws on. *)
Definition sellFund (toFixed2 : number -> string) (clock : Clock)
    (fundCode : string) (shares : number) (account : Account) : SellOutcome :=
  match findPosition (SimulationAccount.positions account) fundCode with
  | None => SellRefused {| success := false; message := "未找到该持仓" |}
  | Some position =>
    if leNum shares 0 then
      SellRefused {| success := false; message := "卖出份额必须大于0" |}
    else if gtNum shares (Position.shares position) then
      SellRefused
        {| success := false;
           message :=
             ("卖出份额超过持仓份额！你最多可卖出 "
                ++ toFixed2 (Position.shares position) ++ " 份")%string |}
    else
      match findFund fundCode with
      | None => SellTypeError
      | Some fund =>
        let totalAmount := shares * MockFund.price fund in
        let isFullSell := strictEq shares (Position.shares position) in
        let sellRatio := shares / Position.shares position in
        let newPositions :=
          if isFullSell then
            filter (fun p => negb (String.eqb (Position.fundCode p) fundCode))
                   (SimulationAccount.positions account)
          else
            let newTotalCost := Position.totalCost position * (1 - sellRatio) in
            let newShares := Position.shares position - shares in
            map (fun p =>
                   if String.eqb (Position.fundCode p) fundCode
                   then soldSome fund newShares newTotalCost p
                   else p)
                (SimulationAccount.positions account) in
        let newTransaction :=
          Transaction.mk (toString (transactionNow clock))
            (MockFund.code fund) (MockFund.name fund)
            (fundTypeName (MockFund.type fund))
            sell (Some (if isFullSell then full else partial))
            shares (MockFund.price fund) totalAmount (createdNow clock) in
        let newCashBalance :=
          SimulationAccount.cashBalance account + totalAmount in
        let newTotalAssets := sumMarketValue newPositions + newCashBalance in
        SellSet
          (SimulationAccount.mk
             newTotalAssets
             newCashBalance
             (newTotalAssets - 100000)
             ((newTotalAssets - 100000) / 100000 * 100)
             newPositions
             (newTransaction :: SimulationAccount.transactions account))
          {| success := true;
             message := if isFullSell then "清仓成功！" else "卖出成功！" |}
      end
  end.

(** The account in the store once a buy is over. *)
Definition stored (outcome : BuyOutcome) (account : Account) : Account :=
  match outcome with
  | BuySet account' => account'
  | _ => account
  end.

(** A reading of the clock. *)
Definition noon : Clock :=
  {| positionNow := 1700000000000;
     transactionNow := 1700000000000;
     createdNow := 1700000000000 |}.




(** The initial account after [buyFund("F001", 100)]. *)
Definition heldF001 : Account :=
  stored (buyFund noon "F001" 100 initialState) initialState.

End Double.

(** ** Number.prototype.toFixed(2) *)

(** The integer [n] for which [n / 100 - x] is as close to zero as possible,
    the larger one when there are two. *)
Definition nearestHundredth (x : number) : Z := Qfloor (x * 100 + 0.5).

Section Ledger.

(** [Number::toString], which [toFixed] falls back on from [10^21] on
    (exponent notation); it is not modelled and stays a parameter. *)
Variable NumberToString : number -> string.

(** [x.toFixed(2)]: a minus sign when [x < 0], then for the absolute value
    the digits of the nearest integer to [100 x], padded to three, with a
    point before the last two; the split is made arithmetically here. *)
Definition toFixed2 (x : number) : string :=
  let s := if gtNum 0 x then "-"%string else ""%string in
  let x := if gtNum 0 x then - x else x in
  if leNum 1000000000000000000000 x then
    (s ++ NumberToString x)%string
  else
    let n := nearestHundredth x in
    (s ++ decimal (n / 100) ++ "."
       ++ digit (n mod 100 / 10) ++ digit (n mod 10))%string.

(** ** sellFund *)

Record SellResult := {
  success : bool;
  message : string
}.

(** The exits of [sellFund]: one of the three early returns, before any
    [set]; a [set] followed by the return of the success result; or the
    TypeError of [fund.price] when [find(...)!] gave [undefined], which is
    raised before [set] is reached. *)
Inductive SellOutcome :=
| SellRefused (result : SellResult)
| SellSet (account' : Account) (result : SellResult)
| SellTypeError.

(** The position [p] after part of it was sold:
    [{ ...p, shares, totalCost, avgCost, currentPrice, marketValue,
    profitLoss, profitLossPercent }]. *)
Definition soldSome (fund : MockFund.t) (newShares newTotalCost : number)
    (p : Position.t) : Position.t :=
  Position.mk (Position.id p) (Position.fundCode p) (Position.fundName p)
    (Position.fundType p)
    newShares
    newTotalCost
    (newTotalCost / newShares)
    (MockFund.price fund)
    (newShares * MockFund.price fund - newTotalCost)
    ((MockFund.price fund - newTotalCost / newShares)
       / (newTotalCost / newShares) * 100)
    (newShares * MockFund.price fund).

(** [sellFund] over a table of funds; the store's action reads [mockFunds]. *)
Definition sellFundIn (funds : list MockFund.t) (clock : Clock)
    (fundCode : string) (shares : number) (account : Account) : SellOutcome :=
  match findPosition (SimulationAccount.positions account) fundCode with
  | None => SellRefused {| success := false; message := "未找到该持仓" |}
  | Some position =>
    if leNum shares 0 then
      SellRefused {| success := false; message := "卖出份额必须大于0" |}
    else if gtNum shares (Position.shares position) then
      SellRefused
        {| success := false;
           message :=
             ("卖出份额超过持仓份额！你最多可卖出 "
                ++ toFixed2 (Position.shares position) ++ " 份")%string |}
    else
      match findFund funds fundCode with
      | None => SellTypeError
      | Some fund =>
        let totalAmount := shares * MockFund.price fund in
        let isFullSell := strictEq shares (Position.shares position) in
        let sellRatio := shares / Position.shares position in
        let newPositions :=
          if isFullSell then
            filter (fun p => negb (String.eqb (Position.fundCode p) fundCode))
                   (SimulationAccount.positions account)
          else
            let newTotalCost := Position.totalCost position * (1 - sellRatio) in
            let newShares := Position.shares position - shares in
            map (fun p =>
                   if String.eqb (Position.fundCode p) fundCode
                   then soldSome fund newShares newTotalCost p
                   else p)
                (SimulationAccount.positions account) in
        let newTransaction :=
          Transaction.mk (toString (transactionNow clock))
            (MockFund.code fund) (MockFund.name fund)
            (fundTypeName (MockFund.type fund))
            sell (Some (if isFullSell then full else partial))
            shares (MockFund.price fund) totalAmount (createdNow clock) in
        let newCashBalance :=
          SimulationAccount.cashBalance account + totalAmount in
        let newTotalAssets := sumMarketValue newPositions + newCashBalance in
        SellSet
          (SimulationAccount.mk
             newTotalAssets
             newCashBalance
             (newTotalAssets - 100000)
             ((newTotalAssets - 100000) / 100000 * 100)
             newPositions
             (newTransaction :: SimulationAccount.transactions account))
          {| success := true;
             message := if isFullSell then "清仓成功！" else "卖出成功！" |}
      end
  end.

Definition sellFund : Clock -> string -> number -> Account -> SellOutcome :=
  sellFundIn mockFunds.

(** ** updatePrices and resetAccount *)

(** One position under a price tick; [random] is the value [Math.random()]
    returned for it. *)
Definition repriced (random : number) (position : Position.t) : Position.t :=
  let changePercent := (random - 0.5) * 0.06 in
  let newPrice := Position.currentPrice position * (1 + changePercent) in
  let marketValue := Position.shares position * newPrice in
  Position.mk (Position.id position) (Position.fundCode position)
    (Position.fundName position) (Position.fundType position)
    (Position.shares position)
    (Position.totalCost position)
    (Position.avgCost position)
    newPrice
    (marketValue - Position.totalCost position)
    ((newPrice - Position.avgCost position) / Position.avgCost position * 100)
    marketValue.

(** [updatePrices] always reaches [set]; [random i] is the draw made for the
    position at index [i]. *)
Definition updatePrices (random : nat -> number) (account : Account)
  : Account :=
  let newPositions :=
    mapi (fun i position => repriced (random i) position)
         (SimulationAccount.positions account) in
  let newTotalAssets :=
    sumMarketValue newPositions + SimulationAccount.cashBalance account in
  SimulationAccount.mk
    newTotalAssets
    (SimulationAccount.cashBalance account)
    (newTotalAssets - 100000)
    ((newTotalAssets - 100000) / 100000 * 100)
    newPositions
    (SimulationAccount.transactions account).

(** [resetAccount] hands the initial state to [set]. *)
Definition resetAccount (account : Account) : Account := initialState.

(** ** The store under a sequence of actions *)

Inductive Action :=
| BuyFund (clock : Clock) (fundCode : string) (shares : number)
| SellFund (clock : Clock) (fundCode : string) (shares : number)
| UpdatePrices (random : nat -> number)
| ResetAccount.

(** The account an action hands to [set], when it reaches that call. *)
Definition written (a : Action) (account : Account) : option Account :=
  match a with
  | BuyFund clock fundCode shares =>
    match buyFund clock fundCode shares account with
    | BuySet account' => Some account'
    | _ => None
    end
  | SellFund clock fundCode shares =>
    match sellFund clock fundCode shares account with
    | SellSet account' _ => Some account'
    | _ => None
    end
  | UpdatePrices random => Some (updatePrices random account)
  | ResetAccount => Some (resetAccount account)
  end.

(** The account in the store once the action is over. *)
Definition after (a : Action) (account : Account) : Account :=
  match written a account with
  | Some account' => account'
  | None => account
  end.

(** The store after a sequence of actions, the first action first. *)
Definition afterAll (actions : list Action) (account : Account) : Account :=
  fold_left (fun acc a => after a acc) actions account.

(** ** Notions the properties are stated with *)



(** Every position holds a positive number of shares. *)
Definition allHeld (account : Account) : Prop :=
  Forall (fun p => 0 < Position.shares p) (SimulationAccount.positions account).

(** The action is a buy of a non-positive number of shares. *)
Definition buysNothing (a : Action) : bool :=
  match a with
  | BuyFund _ _ shares => leNum shares 0
  | _ => false
  end.

(** Two positions agree on everything but the price and what is derived
    from it. *)
Definition sameHolding (p p' : Position.t) : Prop :=
  Position.id p' = Position.id p /\
  Position.fundCode p' = Position.fundCode p /\
  Position.fundName p' = Position.fundName p /\
  Position.fundType p' = Position.fundType p /\
  Position.shares p' = Position.shares p /\
  Position.totalCost p' = Position.totalCost p /\
  Position.avgCost p' = Position.avgCost p.

(** The character is one of [0] to [9]. *)
Definition isDigit (c : ascii) : bool :=
  ((48 <=? nat_of_ascii c) && (nat_of_ascii c <=? 57))%nat.

Fixpoint allDigits (s : string) : bool :=
  match s with
  | EmptyString => true
  | String c s' => isDigit c && allDigits s'
  end.

(** The integer a string of decimal digits denotes, read from the left. *)
Fixpoint valueFrom (acc : Z) (s : string) : Z :=
  match s with
  | EmptyString => acc
  | String c s' => valueFrom (acc * 10 + (Z.of_nat (nat_of_ascii c) - 48)) s'
  end.

Definition valueOf (s : string) : Z := valueFrom 0 s.

(** [text] writes [x] with exactly two decimal places: an optional minus
    sign, at least one digit, a point and two digits, which denote a number
    of hundredths no further than half a hundredth from [|x|]. *)
Definition TwoDecimalsOf (text : string) (x : number) : Prop :=
  exists (sign whole : string) (d1 d2 : ascii),
    text = (sign ++ whole ++ "." ++ String d1 (String d2 EmptyString))%string /\
    (sign = "-"%string /\ x < 0 \/ sign = EmptyString /\ 0 <= x) /\
    whole <> EmptyString /\
    allDigits whole = true /\ isDigit d1 = true /\ isDigit d2 = true /\
    Qabs (inject_Z (valueOf (whole ++ String d1 (String d2 EmptyString))) / 100
          - Qabs x) <= 0.005.

(** ** Inputs the properties are instantiated at *)

(** A reading of the clock. *)
Definition noon : Clock :=
  {| positionNow := 1700000000000;
     transactionNow := 1700000000000;
     createdNow := 1700000000000 |}.

(** A text for [Number::toString]; no instance below reaches [10^21]. *)
Definition exponentText (x : number) : string := "1e+21".

(** The account in the store once a buy is over. *)
Definition stored (outcome : BuyOutcome) (account : Account) : Account :=
  match outcome with
  | BuySet account' => account'
  | _ => account
  end.

(** The initial account after [buyFund("F001", 100)]. *)
Definition heldF001 : Account :=
  stored (buyFund noon "F001" 100 initialState) initialState.

(** The position that account holds. *)
Definition held100 : Position.t :=
  Position.mk "1700000000000" "F001" "成长优选混合" mix
    100 (2.456 * 100) 2.456 2.456 0 0 (100 * 2.456).

(** The initial account after [buyFund("F001", 0)]. *)
Definition emptyF001 : Account :=
  stored (buyFund noon "F001" 0 initialState) initialState.

(** The initial account after [buyFund("F001", -5)]. *)
Definition shortF001 : Account :=
  stored (buyFund noon "F001" (-5) initialState) initialState.

(** The table of funds once the price of F001 has moved to 3. *)
Definition movedFunds : list MockFund.t :=
  [ MockFund.mk "F001" "成长优选混合" mix 3 ]%string.

(** ** lib/utils: formatPercent *)

Definition formatPercent (value : number) : string :=
  let sign := if leNum 0 value then "+"%string else ""%string in
  (sign ++ toFixed2 value ++ "%")%string.

(** ** The trade panel: handleBuy and handleSellConfirm *)

(** The [useState] cells of the panel that the handlers read or write. *)
Record Panel := {
  selectedFundCode : option string;
  buyShares : string;
  sellDialogOpen : bool
}.

(** What a handler of the panel leaves: the panel, the account in the store
    and the alerts raised. *)
Record PanelHandled := {
  panelAfter : Panel;
  accountAfter : Account;
  alertsRaised : list string
}.

(** [handleBuy]; [parsed] is what [parseFloat(buyShares)] returns, [None]
    for NaN. *)
Definition handleBuy (clock : Clock) (parsed : option number)
    (panel : Panel) (account : Account) : PanelHandled :=
  match selectedFundCode panel, buyShares panel with
  | Some (String c code), String d digits =>
    match parsed with
    | None =>
      {| panelAfter := panel; accountAfter := account;
         alertsRaised := ["请输入有效的份额"%string] |}
    | Some sharesNum =>
      if leNum sharesNum 0 then
        {| panelAfter := panel; accountAfter := account;
           alertsRaised := ["请输入有效的份额"%string] |}
      else
        let outcome := buyFund clock (String c code) sharesNum account in
        {| panelAfter :=
             {| selectedFundCode := selectedFundCode panel;
                buyShares := EmptyString;
                sellDialogOpen := sellDialogOpen panel |};
           accountAfter :=
             match outcome with
             | BuySet account' => account'
             | _ => account
             end;
           alertsRaised :=
             match outcome with
             | BuyAlert message => [message]
             | _ => []
             end |}
    end
  | _, _ =>
    {| panelAfter := panel; accountAfter := account; alertsRaised := [] |}
  end.

(** [handleSellConfirm], the [onConfirm] of the dialog: it acts on the panel
    and the account, and yields [None] when [sellFund] throws. *)
Definition handleSellConfirm (clock : Clock) (sellShares : number)
    (world : Panel * Account)
  : (Panel * Account) * option SellDialog.Confirmed :=
  let (panel, account) := world in
  match selectedFundCode panel with
  | Some (String c code) =>
    let closed result account' :=
      ((if success result then
          {| selectedFundCode := None;
             buyShares := buyShares panel;
             sellDialogOpen := false |}
        else panel,
        account'),
       Some {| SellDialog.succeeded := success result;
               SellDialog.message := Some (message result) |}) in
    match sellFund clock (String c code) sellShares account with
    | SellRefused result => closed result account
    | SellSet account' result => closed result account'
    | SellTypeError => (world, None)
    end
  | _ =>
    (world,
     Some {| SellDialog.succeeded := false;
             SellDialog.message := Some "未选择基金"%string |})
  end.

(** ** Further notions the properties are stated with *)

(** At most one position per fund code. *)
Definition onePerCode (account : Account) : Prop :=
  NoDup (map Position.fundCode (SimulationAccount.positions account)).

(** The position is of a fund of the table, holds a positive number of
    shares, and neither its cost nor its average cost is negative. *)
Definition wellHeld (p : Position.t) : Prop :=
  findFund mockFunds (Position.fundCode p) <> None /\
  0 < Position.shares p /\
  0 <= Position.totalCost p /\
  0 <= Position.avgCost p.

(** The derived fields of the position agree with its shares, cost and
    current price. *)
Definition valued (p : Position.t) : Prop :=
  Position.marketValue p == Position.shares p * Position.currentPrice p /\
  Position.profitLoss p == Position.marketValue p - Position.totalCost p /\
  Position.profitLossPercent p ==
    (Position.currentPrice p - Position.avgCost p) / Position.avgCost p * 100.

(** The current price was multiplied by [1 + changePercent] for a change
    of at most three percent either way, and a positive price stayed
    positive. *)
Definition within3Percent (p p' : Position.t) : Prop :=
  (exists changePercent,
     -0.03 <= changePercent /\ changePercent <= 0.03 /\
     Position.currentPrice p' ==
       Position.currentPrice p * (1 + changePercent)) /\
  (0 < Position.currentPrice p -> 0 < Position.currentPrice p').

(** The number has no fractional part. *)
Definition whole (x : number) : Prop := x == inject_Z (Qfloor x).

(** The panel with the fund F001 selected and a number of shares typed. *)
Definition panelF001 : Panel :=
  {| selectedFundCode := Some "F001"%string;
     buyShares := "100";
     sellDialogOpen := false |}.

(** The initial account after [buyFund("F001", 2.5)]. *)
Definition fractionF001 : Account :=
  stored (buyFund noon "F001" 2.5 initialState) initialState.

(** The position that account holds. *)
Definition held2_5 : Position.t :=
  Position.mk "1700000000000" "F001" "成长优选混合" mix
    2.5 (2.456 * 2.5) 2.456 2.456 0 0 (2.5 * 2.456).

(** * Properties *)

(** ** Comparisons and lookups *)

Lemma gtNum_true_iff (x y : number) : gtNum x y = true <-> y < x.
Proof.
  unfold gtNum. rewrite negb_true_iff, <- not_true_iff_false, Qle_bool_iff.
  split; [apply Qnot_le_lt | apply Qlt_not_le].
Qed.

Lemma gtNum_false_iff (x y : number) : gtNum x y = false <-> x <= y.
Proof.
  unfold gtNum. rewrite negb_false_iff. apply Qle_bool_iff.
Qed.

Lemma leNum_true_iff (x y : number) : leNum x y = true <-> x <= y.
Proof. apply Qle_bool_iff. Qed.

Lemma leNum_false_iff (x y : number) : leNum x y = false <-> y < x.
Proof.
  unfold leNum. rewrite <- not_true_iff_false, Qle_bool_iff.
  split; [apply Qnot_le_lt | apply Qlt_not_le].
Qed.

Lemma strictEq_true_iff (x y : number) : strictEq x y = true <-> x == y.
Proof. apply Qeq_bool_iff. Qed.

Lemma strictEq_false_iff (x y : number) : strictEq x y = false <-> ~ x == y.
Proof.
  unfold strictEq. rewrite <- not_true_iff_false, Qeq_bool_iff. tauto.
Qed.

Lemma findFund_code funds fundCode fund :
  findFund funds fundCode = Some fund -> MockFund.code fund = fundCode.
Proof.
  intros H. apply find_some in H. now apply String.eqb_eq.
Qed.

Lemma findPosition_code positions fundCode position :
  findPosition positions fundCode = Some position ->
  Position.fundCode position = fundCode.
Proof.
  intros H. apply find_some in H. now apply String.eqb_eq.
Qed.

Lemma findPosition_In positions fundCode position :
  findPosition positions fundCode = Some position -> In position positions.
Proof.
  intros H. now apply find_some in H.
Qed.

(** A position appended for a code that was not held is the one found. *)
Lemma findPosition_app_new positions fundCode position :
  findPosition positions fundCode = None ->
  Position.fundCode position = fundCode ->
  findPosition (positions ++ [position]) fundCode = Some position.
Proof.
  unfold findPosition. intros Hnone Hcode.
  induction positions as [|q l IH]; simpl in *.
  - now rewrite Hcode, String.eqb_refl.
  - destruct (String.eqb (Position.fundCode q) fundCode); [discriminate | auto].
Qed.

(** Rewriting the positions of one code in place, by a function that keeps
    the code, rewrites the position found. *)
Lemma findPosition_map_hit (f : Position.t -> Position.t)
    positions fundCode position :
  (forall q, Position.fundCode (f q) = Position.fundCode q) ->
  findPosition positions fundCode = Some position ->
  findPosition
    (map (fun q => if String.eqb (Position.fundCode q) fundCode then f q else q)
         positions) fundCode = Some (f position).
Proof.
  unfold findPosition. intros Hf.
  induction positions as [|q l IH]; simpl; [discriminate|].
  destruct (String.eqb (Position.fundCode q) fundCode) eqn:E; simpl.
  - intros [= ->]. now rewrite Hf, E.
  - rewrite E. exact IH.
Qed.

Lemma findPosition_filter_out positions fundCode :
  findPosition
    (filter (fun p => negb (String.eqb (Position.fundCode p) fundCode)) positions)
    fundCode = None.
Proof.
  unfold findPosition.
  induction positions as [|q l IH]; simpl; [reflexivity|].
  destruct (String.eqb (Position.fundCode q) fundCode) eqn:E; simpl; [exact IH|].
  now rewrite E.
Qed.

Lemma filter_out_code positions fundCode :
  Forall (fun p => Position.fundCode p <> fundCode)
    (filter (fun p => negb (String.eqb (Position.fundCode p) fundCode)) positions).
Proof.
  apply Forall_forall. intros p Hin. apply filter_In in Hin as [_ Hp].
  apply negb_true_iff in Hp. now apply String.eqb_neq.
Qed.

(** ** Buying *)

(** The account a successful buy hands to [set], spelled out. *)
Lemma buyFundIn_set funds clock fundCode shares account account' :
  buyFundIn funds clock fundCode shares account = BuySet account' ->
  exists fund,
    findFund funds fundCode = Some fund /\
    shares * MockFund.price fund <= SimulationAccount.cashBalance account /\
    SimulationAccount.cashBalance account' =
      SimulationAccount.cashBalance account - shares * MockFund.price fund /\
    SimulationAccount.totalAssets account' =
      sumMarketValue (SimulationAccount.positions account')
        + SimulationAccount.cashBalance account' /\
    SimulationAccount.positions account' =
      match findPosition (SimulationAccount.positions account) fundCode with
      | Some existingPosition =>
        map (fun p =>
               if String.eqb (Position.fundCode p) fundCode
               then boughtMore fund
                      (Position.shares existingPosition + shares)
                      (Position.totalCost existingPosition
                         + MockFund.price fund * shares)
                      ((Position.totalCost existingPosition
                          + MockFund.price fund * shares)
                         / (Position.shares existingPosition + shares))
                      p
               else p)
            (SimulationAccount.positions account)
      | None =>
        SimulationAccount.positions account ++
          [Position.mk (toString (positionNow clock))
             (MockFund.code fund) (MockFund.name fund) (MockFund.type fund)
             shares (MockFund.price fund * shares) (MockFund.price fund)
             (MockFund.price fund) 0 0 (shares * MockFund.price fund)]
      end.
Proof.
  unfold buyFundIn. intros H.
  destruct (findFund funds fundCode) as [fund|]; [|discriminate].
  destruct (gtNum _ _) eqn:G; [discriminate|].
  apply gtNum_false_iff in G.
  injection H as <-. exists fund. simpl.
  repeat split; auto.
Qed.

(** C1. Starting from an account that holds no position in a fund code,
    a successful buy of [s1] shares at price [p1] followed by a successful
    buy of [s2] shares of the same code at price [p2] leaves a position for
    that code whose avgCost is [(p1*s1 + p2*s2) / (s1 + s2)], its shares
    [s1 + s2] and its totalCost [p1*s1 + p2*s2]. *)
Theorem buy_twice_avgCost_is_share_weighted
    funds1 funds2 clock1 clock2 fundCode s1 s2 account account1 account2
    fund1 fund2 :
  findPosition (SimulationAccount.positions account) fundCode = None ->
  findFund funds1 fundCode = Some fund1 ->
  findFund funds2 fundCode = Some fund2 ->
  buyFundIn funds1 clock1 fundCode s1 account = BuySet account1 ->
  buyFundIn funds2 clock2 fundCode s2 account1 = BuySet account2 ->
  exists position,
    findPosition (SimulationAccount.positions account2) fundCode
      = Some position /\
    Position.avgCost position ==
      (MockFund.price fund1 * s1 + MockFund.price fund2 * s2) / (s1 + s2) /\
    Position.shares position == s1 + s2 /\
    Position.totalCost position ==
      MockFund.price fund1 * s1 + MockFund.price fund2 * s2.
Proof.
  intros Hnone Hf1 Hf2 Hbuy1 Hbuy2.
  apply buyFundIn_set in Hbuy1 as (f1 & Hf1' & _ & _ & _ & Hpos1).
  apply buyFundIn_set in Hbuy2 as (f2 & Hf2' & _ & _ & _ & Hpos2).
  rewrite Hf1 in Hf1'. injection Hf1' as <-.
  rewrite Hf2 in Hf2'. injection Hf2' as <-.
  rewrite Hnone in Hpos1.
  pose proof (findFund_code _ _ _ Hf1) as Hcode.
  assert (Hfound :
            findPosition (SimulationAccount.positions account1) fundCode
            = Some (Position.mk (toString (positionNow clock1))
                      (MockFund.code fund1) (MockFund.name fund1)
                      (MockFund.type fund1) s1 (MockFund.price fund1 * s1)
                      (MockFund.price fund1) (MockFund.price fund1) 0 0
                      (s1 * MockFund.price fund1))).
  { rewrite Hpos1. now apply findPosition_app_new. }
  rewrite Hfound in Hpos2. simpl in Hpos2.
  eexists. split.
  - rewrite Hpos2. apply findPosition_map_hit; [reflexivity | exact Hfound].
  - simpl. repeat split; reflexivity.
Qed.

(** C3. When the fund is known and [shares * fund.price] exceeds the cash
    balance, buyFund alerts that the cash is insufficient and returns
    without reaching [set]: the account in the store, with all its fields,
    is the one that was there. *)
Theorem buy_beyond_cash_changes_nothing clock fundCode shares account fund :
  findFund mockFunds fundCode = Some fund ->
  SimulationAccount.cashBalance account < shares * MockFund.price fund ->
  buyFund clock fundCode shares account = BuyAlert "现金余额不足！" /\
  written (BuyFund clock fundCode shares) account = None /\
  after (BuyFund clock fundCode shares) account = account.
Proof.
  intros Hfund Hcash.
  assert (H : buyFund clock fundCode shares account = BuyAlert "现金余额不足！").
  { unfold buyFund, buyFundIn. rewrite Hfund.
    apply gtNum_true_iff in Hcash. now rewrite Hcash. }
  unfold after, written. now rewrite H.
Qed.

(** ** Selling *)

(** The account a successful sell hands to [set], spelled out. *)
Lemma sellFundIn_set funds clock fundCode shares account account' result :
  sellFundIn funds clock fundCode shares account = SellSet account' result ->
  exists position fund,
    findPosition (SimulationAccount.positions account) fundCode
      = Some position /\
    findFund funds fundCode = Some fund /\
    0 < shares /\ shares <= Position.shares position /\
    result = {| success := true;
                message := if strictEq shares (Position.shares position)
                           then "清仓成功！" else "卖出成功！" |} /\
    SimulationAccount.cashBalance account' =
      SimulationAccount.cashBalance account + shares * MockFund.price fund /\
    SimulationAccount.totalAssets account' =
      sumMarketValue (SimulationAccount.positions account')
        + SimulationAccount.cashBalance account' /\
    SimulationAccount.positions account' =
      (if strictEq shares (Position.shares position) then
         filter (fun p => negb (String.eqb (Position.fundCode p) fundCode))
                (SimulationAccount.positions account)
       else
         map (fun p =>
                if String.eqb (Position.fundCode p) fundCode
                then soldSome fund (Position.shares position - shares)
                       (Position.totalCost position
                          * (1 - shares / Position.shares position)) p
                else p)
             (SimulationAccount.positions account)) /\
    SimulationAccount.transactions account' =
      Transaction.mk (toString (transactionNow clock))
        (MockFund.code fund) (MockFund.name fund)
        (fundTypeName (MockFund.type fund))
        sell
        (Some (if strictEq shares (Position.shares position)
               then full else partial))
        shares (MockFund.price fund) (shares * MockFund.price fund)
        (createdNow clock)
      :: SimulationAccount.transactions account.
Proof.
  unfold sellFundIn. intros H.
  destruct (findPosition _ fundCode) as [position|]; [|discriminate].
  destruct (leNum shares 0) eqn:L; [discriminate|].
  destruct (gtNum shares _) eqn:G; [discriminate|].
  destruct (findFund funds fundCode) as [fund|]; [|discriminate].
  apply leNum_false_iff in L. apply gtNum_false_iff in G.
  injection H as <- <-. exists position, fund. simpl.
  repeat split; auto.
Qed.

(** A sell of a positive number of shares, no more than are held, of a fund
    of the table reaches [set]. *)
Lemma sellFundIn_succeeds funds clock fundCode shares account position fund :
  findPosition (SimulationAccount.positions account) fundCode = Some position ->
  findFund funds fundCode = Some fund ->
  0 < shares -> shares <= Position.shares position ->
  exists account' result,
    sellFundIn funds clock fundCode shares account = SellSet account' result.
Proof.
  intros Hpos Hfund Hs Hle. unfold sellFundIn. rewrite Hpos.
  apply leNum_false_iff in Hs. apply gtNum_false_iff in Hle.
  rewrite Hs, Hle, Hfund. eauto.
Qed.

(** C4, as the code has it. When the account holds a position in a fund of
    the table and that position has shares > 0, selling exactly
    position.shares reaches [set] and returns success with the message of a
    full sell; the new positions are the old ones without those of the code,
    so none is found for the code, and the transaction put in front of the
    history is a sell of sellType full for these shares. *)
Theorem full_sell_removes_position clock fundCode account position fund :
  findPosition (SimulationAccount.positions account) fundCode = Some position ->
  findFund mockFunds fundCode = Some fund ->
  0 < Position.shares position ->
  exists account' transaction,
    sellFund clock fundCode (Position.shares position) account =
      SellSet account' {| success := true; message := "清仓成功！" |} /\
    after (SellFund clock fundCode (Position.shares position)) account
      = account' /\
    SimulationAccount.positions account' =
      filter (fun p => negb (String.eqb (Position.fundCode p) fundCode))
             (SimulationAccount.positions account) /\
    findPosition (SimulationAccount.positions account') fundCode = None /\
    Forall (fun p => Position.fundCode p <> fundCode)
           (SimulationAccount.positions account') /\
    SimulationAccount.transactions account' =
      transaction :: SimulationAccount.transactions account /\
    Transaction.type transaction = sell /\
    Transaction.sellType transaction = Some full /\
    Transaction.fundCode transaction = fundCode /\
    Transaction.shares transaction = Position.shares position.
Proof.
  intros Hpos Hfund Hheld.
  destruct (sellFundIn_succeeds mockFunds clock fundCode
              (Position.shares position) account position fund
              Hpos Hfund Hheld (Qle_refl _))
    as (account' & result & Hsell).
  pose proof Hsell as Hset.
  apply sellFundIn_set in Hset
    as (position0 & fund0 & Hpos0 & Hfund0 & _ & _ & Hres & _ & _ & Hposs & Htx).
  rewrite Hpos in Hpos0. injection Hpos0 as <-.
  rewrite Hfund in Hfund0. injection Hfund0 as <-.
  assert (Hfull : strictEq (Position.shares position) (Position.shares position)
                  = true)
    by (apply strictEq_true_iff; reflexivity).
  rewrite Hfull in Hres, Hposs, Htx. subst result.
  exists account'. eexists. split; [exact Hsell|].
  split. { unfold after, written. fold sellFund in Hsell. now rewrite Hsell. }
  split; [exact Hposs|].
  split. { rewrite Hposs. apply findPosition_filter_out. }
  split. { rewrite Hposs. apply filter_out_code. }
  split; [exact Htx|].
  simpl. repeat split; auto. now apply findFund_code in Hfund.
Qed.

(** C10. A call of sellFund that fails because no position is held for the
    code, because shares <= 0, or because shares > position.shares returns a
    result with success = false and does not reach [set]: the account in
    the store is the one that was there. *)
Theorem failing_sell_changes_nothing clock fundCode shares account :
  findPosition (SimulationAccount.positions account) fundCode = None \/
  shares <= 0 \/
  (exists position,
     findPosition (SimulationAccount.positions account) fundCode
       = Some position /\
     Position.shares position < shares) ->
  exists message,
    sellFund clock fundCode shares account =
      SellRefused {| success := false; message := message |} /\
    written (SellFund clock fundCode shares) account = None /\
    after (SellFund clock fundCode shares) account = account.
Proof.
  intros H.
  assert (Hrefused : exists message,
             sellFund clock fundCode shares account =
               SellRefused {| success := false; message := message |}).
  { unfold sellFund, sellFundIn.
    destruct (findPosition _ fundCode) as [position|] eqn:Hpos; [|eauto].
    destruct (leNum shares 0) eqn:L; [eauto|].
    destruct (gtNum shares (Position.shares position)) eqn:G; [eauto|].
    exfalso. apply leNum_false_iff in L. apply gtNum_false_iff in G.
    destruct H as [H | [H | (position' & H & Hlt)]].
    - discriminate.
    - lra.
    - injection H as <-. lra. }
  destruct Hrefused as (message & Hrefused). exists message.
  unfold after, written. now rewrite Hrefused.
Qed.

(** ** Writing a number with two decimals *)

Lemma digit_spec d :
  (0 <= d <= 9)%Z ->
  exists c, digit d = String c EmptyString /\ isDigit c = true /\
            (Z.of_nat (nat_of_ascii c) - 48 = d)%Z.
Proof.
  intros Hd. unfold digit. eexists. split; [reflexivity|].
  assert (E : (d = 0 \/ d = 1 \/ d = 2 \/ d = 3 \/ d = 4 \/ d = 5 \/ d = 6
               \/ d = 7 \/ d = 8 \/ d = 9)%Z) by lia.
  repeat (destruct E as [-> | E]; [split; reflexivity|]).
  subst d. split; reflexivity.
Qed.

Lemma allDigits_app s t :
  allDigits (s ++ t) = allDigits s && allDigits t.
Proof.
  induction s as [|c s IH]; simpl; [reflexivity|].
  now rewrite IH, andb_assoc.
Qed.

Lemma valueFrom_app acc s t :
  valueFrom acc (s ++ t) = valueFrom (valueFrom acc s) t.
Proof.
  revert acc. induction s as [|c s IH]; intros acc; simpl; [reflexivity|].
  apply IH.
Qed.

Lemma decimalFuel_digits fuel n :
  (0 <= n)%Z -> allDigits (decimalFuel fuel n) = true.
Proof.
  revert n. induction fuel as [|fuel IH]; intros n Hn; simpl; [reflexivity|].
  destruct (n <? 10)%Z eqn:E.
  - apply Z.ltb_lt in E.
    destruct (digit_spec n) as (c & -> & Hc & _); [lia|].
    simpl. now rewrite Hc.
  - rewrite allDigits_app, IH by (apply Z.div_pos; lia).
    destruct (digit_spec (n mod 10)) as (c & -> & Hc & _).
    { pose proof (Z.mod_pos_bound n 10). lia. }
    simpl. now rewrite Hc.
Qed.

(** With fuel for the binary length of [n], the digits denote [n]. *)
Lemma decimalFuel_value fuel n :
  (0 <= n < 2 ^ Z.of_nat fuel)%Z -> valueOf (decimalFuel fuel n) = n.
Proof.
  unfold valueOf. revert n.
  induction fuel as [|fuel IH]; intros n Hn.
  - simpl in *. lia.
  - cbn [decimalFuel]. destruct (n <? 10)%Z eqn:E.
    + apply Z.ltb_lt in E.
      destruct (digit_spec n) as (c & -> & _ & Hc); [lia|].
      simpl. lia.
    + apply Z.ltb_ge in E.
      rewrite Nat2Z.inj_succ, Z.pow_succ_r in Hn by lia.
      rewrite valueFrom_app, IH.
      * destruct (digit_spec (n mod 10)) as (c & -> & _ & Hc).
        { pose proof (Z.mod_pos_bound n 10). lia. }
        simpl. rewrite Hc. pose proof (Z.div_mod n 10). lia.
      * split; [apply Z.div_pos; lia|].
        apply Z.div_lt_upper_bound; lia.
Qed.

Lemma decimal_value n : (0 <= n)%Z -> valueOf (decimal n) = n.
Proof.
  intros Hn. unfold decimal. apply decimalFuel_value.
  split; [exact Hn|].
  rewrite Nat2Z.inj_succ, Z2Nat.id by apply Z.log2_nonneg.
  destruct (Z.eq_dec n 0) as [-> | Hnz]; [reflexivity|].
  apply Z.log2_spec. lia.
Qed.

Lemma decimal_nonempty n : (0 <= n)%Z -> decimal n <> EmptyString.
Proof.
  intros Hn. unfold decimal. cbn [decimalFuel].
  destruct (n <? 10)%Z eqn:E.
  - apply Z.ltb_lt in E.
    destruct (digit_spec n) as (c & -> & _); [lia|]. discriminate.
  - destruct (digit_spec (n mod 10)) as (c & -> & _).
    { pose proof (Z.mod_pos_bound n 10). lia. }
    destruct (decimalFuel _ _); discriminate.
Qed.

Lemma nearestHundredth_nonneg a : 0 <= a -> (0 <= nearestHundredth a)%Z.
Proof.
  intros Ha. unfold nearestHundredth.
  change 0%Z with (Qfloor 0). apply Qfloor_resp_le. lra.
Qed.

Lemma nearestHundredth_close a :
  Qabs (inject_Z (nearestHundredth a) / 100 - a) <= 0.005.
Proof.
  unfold nearestHundredth.
  pose proof (Qfloor_le (a * 100 + 0.5)) as Hlo.
  pose proof (Qlt_floor (a * 100 + 0.5)) as Hhi.
  rewrite inject_Z_plus in Hhi. change (inject_Z 1) with 1 in Hhi.
  generalize dependent (inject_Z (Qfloor (a * 100 + 0.5))). intros z Hlo Hhi.
  assert (E : z / 100 == z * (1 # 100)) by field.
  rewrite E. apply Qabs_Qle_condition. split; lra.
Qed.

(** The text [toFixed2] writes for a non-negative number below [10^21]. *)
Lemma hundredths_text a :
  0 <= a ->
  exists (whole : string) (d1 d2 : ascii),
    (decimal (nearestHundredth a / 100) ++ "."
       ++ digit (nearestHundredth a mod 100 / 10)
       ++ digit (nearestHundredth a mod 10))%string
      = (whole ++ "." ++ String d1 (String d2 EmptyString))%string /\
    whole <> EmptyString /\
    allDigits whole = true /\ isDigit d1 = true /\ isDigit d2 = true /\
    Qabs (inject_Z (valueOf (whole ++ String d1 (String d2 EmptyString))) / 100
          - a) <= 0.005.
Proof.
  intros Ha.
  pose proof (nearestHundredth_nonneg a Ha) as Hn.
  pose proof (nearestHundredth_close a) as Hclose.
  set (n := nearestHundredth a) in *.
  assert (Hq : (0 <= n / 100)%Z) by (apply Z.div_pos; lia).
  destruct (digit_spec (n mod 100 / 10)) as (c1 & E1 & D1 & V1).
  { pose proof (Z.mod_pos_bound n 100).
    assert (0 <= n mod 100 / 10 < 10)%Z
      by (split; [apply Z.div_pos; lia | apply Z.div_lt_upper_bound; lia]).
    lia. }
  destruct (digit_spec (n mod 10)) as (c2 & E2 & D2 & V2).
  { pose proof (Z.mod_pos_bound n 10). lia. }
  exists (decimal (n / 100)), c1, c2.
  rewrite E1, E2. split; [reflexivity|].
  split; [now apply decimal_nonempty|].
  split; [apply decimalFuel_digits; exact Hq|].
  split; [exact D1|]. split; [exact D2|].
  assert (Hv : valueOf (decimal (n / 100) ++ String c1 (String c2 EmptyString))
               = n).
  { unfold valueOf. rewrite valueFrom_app.
    fold (valueOf (decimal (n / 100))). rewrite decimal_value by exact Hq.
    simpl. rewrite V1, V2.
    clear. Z.div_mod_to_equations. lia. }
  rewrite Hv. exact Hclose.
Qed.

(** Below [10^21] in absolute value, [toFixed2] writes its argument with
    exactly two decimals. *)
Lemma toFixed2_two_decimals x :
  Qabs x < 1000000000000000000000 -> TwoDecimalsOf (toFixed2 x) x.
Proof.
  intros Hx. unfold toFixed2, TwoDecimalsOf.
  destruct (gtNum 0 x) eqn:G.
  - apply gtNum_true_iff in G.
    assert (Habs : Qabs x == - x) by (apply Qabs_neg; lra).
    assert (L : leNum 1000000000000000000000 (- x) = false).
    { apply leNum_false_iff. rewrite <- Habs. exact Hx. }
    rewrite L.
    destruct (hundredths_text (- x))
      as (whole & d1 & d2 & -> & H1 & H2 & H3 & H4 & H5); [lra|].
    exists "-"%string, whole, d1, d2.
    split; [reflexivity|]. split; [left; split; [reflexivity | exact G]|].
    repeat (split; [assumption|]). now rewrite Habs.
  - apply gtNum_false_iff in G.
    assert (Habs : Qabs x == x) by (apply Qabs_pos; exact G).
    assert (L : leNum 1000000000000000000000 x = false).
    { apply leNum_false_iff. rewrite <- Habs. exact Hx. }
    rewrite L.
    destruct (hundredths_text x)
      as (whole & d1 & d2 & -> & H1 & H2 & H3 & H4 & H5); [exact G|].
    exists EmptyString, whole, d1, d2.
    split; [reflexivity|]. split; [right; split; [reflexivity | exact G]|].
    repeat (split; [assumption|]). now rewrite Habs.
Qed.

(** From [10^21] on the text is the one of [Number::toString]. *)
Lemma toFixed2_large x :
  1000000000000000000000 <= x -> toFixed2 x = NumberToString x.
Proof.
  intros Hx. unfold toFixed2.
  assert (G : gtNum 0 x = false) by (apply gtNum_false_iff; lra).
  apply leNum_true_iff in Hx. now rewrite G, Hx.
Qed.

(** C6, as the code has it. When the account holds a position in the code
    and the shares asked for are positive and exceed position.shares,
    sellFund returns success = false with the message that names the most
    that can be sold, and does not reach [set]: the account in the store is
    the one that was there. The amount in the message is
    position.shares.toFixed(2), which for |position.shares| < 10^21 is
    position.shares written with exactly two decimals. *)
Theorem sell_beyond_position_reports_max
    clock fundCode shares account position :
  findPosition (SimulationAccount.positions account) fundCode = Some position ->
  0 < shares ->
  Position.shares position < shares ->
  sellFund clock fundCode shares account =
    SellRefused
      {| success := false;
         message :=
           ("卖出份额超过持仓份额！你最多可卖出 "
              ++ toFixed2 (Position.shares position) ++ " 份")%string |} /\
  written (SellFund clock fundCode shares) account = None /\
  after (SellFund clock fundCode shares) account = account /\
  (Qabs (Position.shares position) < 1000000000000000000000 ->
   TwoDecimalsOf (toFixed2 (Position.shares position))
                 (Position.shares position)).
Proof.
  intros Hpos Hs Hmore.
  assert (H : sellFund clock fundCode shares account =
              SellRefused
                {| success := false;
                   message :=
                     ("卖出份额超过持仓份额！你最多可卖出 "
                        ++ toFixed2 (Position.shares position)
                        ++ " 份")%string |}).
  { unfold sellFund, sellFundIn. rewrite Hpos.
    apply leNum_false_iff in Hs. apply gtNum_true_iff in Hmore.
    now rewrite Hs, Hmore. }
  split; [exact H|].
  unfold after, written. rewrite H.
  repeat split. apply toFixed2_two_decimals.
Qed.

(** ** The account aggregates *)





(** ** Positions and their shares *)

(** C8, on the code: bought with shares = 0 from the initial account, a known
    fund gets a position of zero shares, which the store then holds. *)
Theorem buyFund_zero_shares_opens_empty_position :
  forall clock,
  exists account' position,
    buyFund clock "F001" 0 initialState = BuySet account' /\
    after (BuyFund clock "F001" 0) initialState = account' /\
    findPosition (SimulationAccount.positions account') "F001"
      = Some position /\
    Position.shares position == 0.
Proof.
  intros clock. eexists. eexists.
  split; [reflexivity|]. split; [reflexivity|]. split; reflexivity.
Qed.

Lemma mapi_from_Forall (P : Position.t -> Prop)
    (f : nat -> Position.t -> Position.t) i positions :
  (forall j p, P p -> P (f j p)) ->
  Forall P positions -> Forall P (mapi_from i f positions).
Proof.
  intros Hf H. revert i. induction H as [|p rest Hp _ IH]; intros i; simpl.
  - constructor.
  - constructor; [now apply Hf | apply IH].
Qed.

(** What buyFund is missing: as long as no buy is made with shares <= 0,
    every action keeps all positions at a positive number of shares. *)
Lemma after_keeps_allHeld a account :
  buysNothing a = false -> allHeld account -> allHeld (after a account).
Proof.
  unfold allHeld, after. intros Hbuy Hheld.
  destruct a as [clock c s | clock c s | random |]; simpl in *.
  - apply leNum_false_iff in Hbuy.
    destruct (buyFund clock c s account) as [| |acc] eqn:B; try exact Hheld.
    apply buyFundIn_set in B as (fund & _ & _ & _ & _ & ->).
    destruct (findPosition _ c) as [existing|] eqn:Hpos.
    + apply findPosition_In in Hpos.
      pose proof (proj1 (Forall_forall _ _) Hheld _ Hpos) as Hex.
      simpl in Hex.
      apply Forall_map. eapply Forall_impl; [|exact Hheld].
      intros p Hp. destruct (String.eqb _ _); simpl; [lra | exact Hp].
    + apply Forall_app. split; [exact Hheld|].
      constructor; [exact Hbuy | constructor].
  - destruct (sellFund clock c s account) as [|acc r|] eqn:S; try exact Hheld.
    apply sellFundIn_set in S
      as (position & fund & _ & _ & _ & Hle & _ & _ & _ & -> & _).
    destruct (strictEq s (Position.shares position)) eqn:E.
    + apply Forall_forall. intros p Hin. apply filter_In in Hin as [Hin _].
      exact (proj1 (Forall_forall _ _) Hheld _ Hin).
    + apply strictEq_false_iff in E.
      apply Forall_map. eapply Forall_impl; [|exact Hheld].
      intros p Hp. destruct (String.eqb _ _); simpl; [|exact Hp].
      apply Qle_lteq in Hle. destruct Hle as [Hlt | Heq]; [lra | contradiction].
  - unfold mapi. apply mapi_from_Forall; [|exact Hheld].
    intros j p Hp. exact Hp.
  - constructor.
Qed.

(** ** The price tick *)

Lemma mapi_from_sameHolding i (random : nat -> number) positions :
  Forall2 sameHolding positions
    (mapi_from i (fun i position => repriced (random i) position) positions).
Proof.
  revert i. induction positions as [|p rest IH]; intros i; simpl.
  - constructor.
  - constructor; [|apply IH]. unfold sameHolding. simpl. tauto.
Qed.

(** C9. updatePrices leaves cashBalance and the transaction list as they
    were, and each position keeps its place, id, fund, shares, totalCost and
    avgCost: only currentPrice, marketValue, profitLoss and
    profitLossPercent of the positions and the aggregates of the account
    are written anew. *)
Theorem updatePrices_keeps_cash_and_history random account :
  SimulationAccount.cashBalance (updatePrices random account) =
    SimulationAccount.cashBalance account /\
  SimulationAccount.transactions (updatePrices random account) =
    SimulationAccount.transactions account /\
  Forall2 sameHolding
    (SimulationAccount.positions account)
    (SimulationAccount.positions (updatePrices random account)).
Proof.
  split; [reflexivity|]. split; [reflexivity|].
  simpl. apply mapi_from_sameHolding.
Qed.

(** ** The store along a sequence of actions *)

(** A property of the account that every allowed action keeps holds after
    every sequence of allowed actions. *)
Lemma afterAll_keeps (P : Account -> Prop) (allowed : Action -> bool) :
  (forall a account, allowed a = true -> P account -> P (after a account)) ->
  forall actions account,
    forallb allowed actions = true -> P account ->
    P (afterAll actions account).
Proof.
  intros Hstep actions. unfold afterAll.
  induction actions as [|a rest IH]; intros account Hall HP; simpl; [exact HP|].
  simpl in Hall. apply andb_true_iff in Hall as [Ha Hrest].
  apply IH; [exact Hrest|]. now apply Hstep.
Qed.

Lemma forallb_always {A : Type} (l : list A) :
  forallb (fun _ => true) l = true.
Proof.
  induction l; simpl; auto.
Qed.

Lemma map_fundCode_rewritten (f : Position.t -> Position.t) fundCode positions :
  (forall q, Position.fundCode (f q) = Position.fundCode q) ->
  map Position.fundCode
      (map (fun q => if String.eqb (Position.fundCode q) fundCode
                     then f q else q) positions)
  = map Position.fundCode positions.
Proof.
  intros Hf. induction positions as [|q l IH]; simpl; [reflexivity|].
  rewrite IH. destruct (String.eqb _ _); [now rewrite Hf | reflexivity].
Qed.

Lemma map_fundCode_repriced i (random : nat -> number) positions :
  map Position.fundCode
      (mapi_from i (fun i position => repriced (random i) position) positions)
  = map Position.fundCode positions.
Proof.
  revert i. induction positions as [|q l IH]; intros i; simpl; [reflexivity|].
  now rewrite IH.
Qed.

Lemma findPosition_None_not_held positions fundCode :
  findPosition positions fundCode = None ->
  ~ In fundCode (map Position.fundCode positions).
Proof.
  unfold findPosition. intros Hnone Hin.
  apply in_map_iff in Hin as (p & Hcode & Hin).
  apply (find_none _ _ Hnone) in Hin.
  rewrite Hcode, String.eqb_refl in Hin. discriminate.
Qed.

Lemma NoDup_fundCode_filter (keep : Position.t -> bool) positions :
  NoDup (map Position.fundCode positions) ->
  NoDup (map Position.fundCode (filter keep positions)).
Proof.
  induction positions as [|q l IH]; simpl; intros H; [constructor|].
  inversion H as [|? ? Hnotin Hrest]; subst.
  destruct (keep q); simpl; [|now apply IH].
  constructor; [|now apply IH].
  intros Hin. apply Hnotin.
  apply in_map_iff in Hin as (p & Hcode & Hin).
  apply filter_In in Hin as [Hin _].
  apply in_map_iff. now exists p.
Qed.

Lemma after_keeps_onePerCode a account :
  onePerCode account -> onePerCode (after a account).
Proof.
  unfold onePerCode, after. intros Hone.
  destruct a as [clock c s | clock c s | random |]; simpl.
  - destruct (buyFund clock c s account) as [| |acc] eqn:B; try exact Hone.
    apply buyFundIn_set in B as (fund & Hfund & _ & _ & _ & ->).
    destruct (findPosition _ c) as [existing|] eqn:Hpos.
    + now rewrite map_fundCode_rewritten.
    + rewrite map_app. simpl.
      apply findPosition_None_not_held in Hpos.
      rewrite (findFund_code _ _ _ Hfund).
      apply NoDup_rev in Hone. rewrite <- (rev_involutive (_ ++ _)).
      apply NoDup_rev. rewrite rev_app_distr. simpl.
      constructor; [|exact Hone]. now rewrite <- in_rev.
  - destruct (sellFund clock c s account) as [|acc r|] eqn:S; try exact Hone.
    apply sellFundIn_set in S
      as (position & fund & _ & _ & _ & _ & _ & _ & _ & -> & _).
    destruct (strictEq s (Position.shares position)).
    + now apply NoDup_fundCode_filter.
    + now rewrite map_fundCode_rewritten.
  - unfold mapi. now rewrite map_fundCode_repriced.
  - constructor.
Qed.

(** X1. From the initial account, whatever the actions, the store holds at
    most one position per fund code. *)
Theorem positions_one_per_code actions :
  onePerCode (afterAll actions initialState).
Proof.
  apply (afterAll_keeps onePerCode (fun _ => true)).
  - intros a account _. apply after_keeps_onePerCode.
  - apply forallb_always.
  - constructor.
Qed.

(** Every position is of a fund of the table. *)
Lemma after_keeps_known a account :
  Forall (fun p => findFund mockFunds (Position.fundCode p) <> None)
         (SimulationAccount.positions account) ->
  Forall (fun p => findFund mockFunds (Position.fundCode p) <> None)
         (SimulationAccount.positions (after a account)).
Proof.
  unfold after. intros Hknown.
  destruct a as [clock c s | clock c s | random |]; cbn [written].
  - destruct (buyFund clock c s account) as [| |acc] eqn:B; try exact Hknown.
    apply buyFundIn_set in B as (fund & Hfund & _ & _ & _ & ->).
    destruct (findPosition _ c) as [existing|] eqn:Hpos.
    + apply Forall_map. eapply Forall_impl; [|exact Hknown].
      intros p Hp. destruct (String.eqb _ _); [exact Hp | exact Hp].
    + apply Forall_app. split; [exact Hknown|].
      constructor; [|constructor]. cbn [Position.fundCode].
      rewrite (findFund_code _ _ _ Hfund), Hfund. discriminate.
  - destruct (sellFund clock c s account) as [|acc r|] eqn:S; try exact Hknown.
    apply sellFundIn_set in S
      as (position & fund & _ & _ & _ & _ & _ & _ & _ & -> & _).
    destruct (strictEq s (Position.shares position)).
    + apply Forall_forall. intros p Hin. apply filter_In in Hin as [Hin _].
      exact (proj1 (Forall_forall _ _) Hknown _ Hin).
    + apply Forall_map. eapply Forall_impl; [|exact Hknown].
      intros p Hp. destruct (String.eqb _ _); [exact Hp | exact Hp].
  - cbn [updatePrices SimulationAccount.positions].
    unfold mapi. apply mapi_from_Forall; [|exact Hknown].
    intros j p Hp. exact Hp.
  - constructor.
Qed.

(** X2. On every account the store can hold after actions from the initial
    one, sellFund returns: it never raises the TypeError of a position
    whose fund is not in the table. *)
Theorem sellFund_never_throws actions clock fundCode shares :
  sellFund clock fundCode shares (afterAll actions initialState)
    <> SellTypeError.
Proof.
  assert (Hknown :
            Forall (fun p => findFund mockFunds (Position.fundCode p) <> None)
                   (SimulationAccount.positions
                      (afterAll actions initialState))).
  { apply (afterAll_keeps
             (fun account =>
                Forall (fun p => findFund mockFunds (Position.fundCode p) <> None)
                       (SimulationAccount.positions account))
             (fun _ => true)).
    - intros a account _. apply after_keeps_known.
    - apply forallb_always.
    - constructor. }
  unfold sellFund, sellFundIn.
  destruct (findPosition _ fundCode) as [position|] eqn:Hpos; [|discriminate].
  destruct (leNum shares 0); [discriminate|].
  destruct (gtNum shares _); [discriminate|].
  pose proof (findPosition_In _ _ _ Hpos) as Hin.
  pose proof (proj1 (Forall_forall _ _) Hknown _ Hin) as Hfund.
  cbn beta in Hfund. rewrite (findPosition_code _ _ _ Hpos) in Hfund.
  destruct (findFund mockFunds fundCode) eqn:E; [discriminate | congruence].
Qed.

Lemma after_keeps_valued a account :
  Forall valued (SimulationAccount.positions account) ->
  Forall valued (SimulationAccount.positions (after a account)).
Proof.
  unfold after. intros Hval.
  destruct a as [clock c s | clock c s | random |]; cbn [written].
  - destruct (buyFund clock c s account) as [| |acc] eqn:B; try exact Hval.
    apply buyFundIn_set in B as (fund & _ & _ & _ & _ & ->).
    destruct (findPosition _ c) as [existing|].
    + apply Forall_map. eapply Forall_impl; [|exact Hval].
      intros p Hp. destruct (String.eqb _ _); [|exact Hp].
      unfold valued. simpl. repeat split; reflexivity.
    + apply Forall_app. split; [exact Hval|].
      constructor; [|constructor]. unfold valued. simpl.
      split; [reflexivity|]. split; [ring | unfold Qdiv; ring].
  - destruct (sellFund clock c s account) as [|acc r|] eqn:S; try exact Hval.
    apply sellFundIn_set in S
      as (position & fund & _ & _ & _ & _ & _ & _ & _ & -> & _).
    destruct (strictEq s (Position.shares position)).
    + apply Forall_forall. intros p Hin. apply filter_In in Hin as [Hin _].
      exact (proj1 (Forall_forall _ _) Hval _ Hin).
    + apply Forall_map. eapply Forall_impl; [|exact Hval].
      intros p Hp. destruct (String.eqb _ _); [|exact Hp].
      unfold valued. simpl. repeat split; reflexivity.
  - cbn [updatePrices SimulationAccount.positions]. unfold mapi.
    clear Hval. generalize 0%nat.
    induction (SimulationAccount.positions account) as [|p rest IH];
      intros i; simpl; constructor; [|apply IH].
    unfold valued. simpl. repeat split; reflexivity.
  - constructor.
Qed.

(** X3. From the initial account, whatever the actions, every position has
    marketValue = shares * currentPrice, profitLoss = marketValue -
    totalCost and profitLossPercent = (currentPrice - avgCost) / avgCost *
    100. *)
Theorem positions_are_valued actions :
  Forall valued (SimulationAccount.positions (afterAll actions initialState)).
Proof.
  apply (afterAll_keeps
           (fun account => Forall valued (SimulationAccount.positions account))
           (fun _ => true)).
  - intros a account _. apply after_keeps_valued.
  - apply forallb_always.
  - constructor.
Qed.

Lemma table_price_positive fundCode fund :
  findFund mockFunds fundCode = Some fund -> 0 < MockFund.price fund.
Proof.
  unfold findFund, mockFunds. cbn [find MockFund.code].
  repeat (destruct (String.eqb _ fundCode); [intros [= <-]; reflexivity|]).
  discriminate.
Qed.

Lemma after_keeps_wellHeld a account :
  buysNothing a = false ->
  Forall wellHeld (SimulationAccount.positions account) ->
  Forall wellHeld (SimulationAccount.positions (after a account)).
Proof.
  unfold after. intros Hbuy Hinv.
  destruct a as [clock c s | clock c s | random |]; cbn [written].
  - cbn [buysNothing] in Hbuy. apply leNum_false_iff in Hbuy.
    destruct (buyFund clock c s account) as [| |acc] eqn:B; try exact Hinv.
    apply buyFundIn_set in B as (fund & Hfund & _ & _ & _ & ->).
    pose proof (table_price_positive _ _ Hfund) as Hprice.
    assert (Hamount : 0 <= MockFund.price fund * s)
      by (apply Qmult_le_0_compat; lra).
    destruct (findPosition _ c) as [existing|] eqn:Hpos.
    + pose proof (findPosition_In _ _ _ Hpos) as Hin.
      destruct (proj1 (Forall_forall _ _) Hinv _ Hin)
        as (_ & Hheld & Hcost & _).
      apply Forall_map. eapply Forall_impl; [|exact Hinv].
      intros p Hp. destruct (String.eqb _ _); [|exact Hp].
      destruct Hp as (Hknown & _).
      unfold wellHeld.
      cbn [boughtMore Position.fundCode Position.shares
           Position.totalCost Position.avgCost].
      split; [exact Hknown|]. split; [lra|]. split; [lra|].
      apply Qle_shift_div_l; lra.
    + apply Forall_app. split; [exact Hinv|].
      constructor; [|constructor]. unfold wellHeld.
      cbn [Position.fundCode Position.shares
           Position.totalCost Position.avgCost].
      rewrite (findFund_code _ _ _ Hfund), Hfund.
      split; [discriminate|]. split; [exact Hbuy|]. split; lra.
  - destruct (sellFund clock c s account) as [|acc r|] eqn:S; try exact Hinv.
    apply sellFundIn_set in S
      as (position & fund & Hpos & Hfund & Hs & Hle & _ & _ & _ & -> & _).
    destruct (strictEq s (Position.shares position)) eqn:E.
    + apply Forall_forall. intros p Hin. apply filter_In in Hin as [Hin _].
      exact (proj1 (Forall_forall _ _) Hinv _ Hin).
    + apply strictEq_false_iff in E.
      pose proof (findPosition_In _ _ _ Hpos) as Hin.
      destruct (proj1 (Forall_forall _ _) Hinv _ Hin)
        as (_ & Hheld & Hcost & _).
      assert (Hless : s < Position.shares position).
      { apply Qle_lteq in Hle. destruct Hle; [assumption | contradiction]. }
      assert (Hratio : s / Position.shares position <= 1)
        by (apply Qle_shift_div_r; lra).
      assert (Hrest :
                0 <= Position.totalCost position
                       * (1 - s / Position.shares position))
        by (apply Qmult_le_0_compat; lra).
      apply Forall_map. eapply Forall_impl; [|exact Hinv].
      intros p Hp. destruct (String.eqb _ _); [|exact Hp].
      destruct Hp as (Hknown & _).
      unfold wellHeld.
      cbn [soldSome Position.fundCode Position.shares
           Position.totalCost Position.avgCost].
      split; [exact Hknown|]. split; [lra|]. split; [exact Hrest|].
      apply Qle_shift_div_l; lra.
  - cbn [updatePrices SimulationAccount.positions]. unfold mapi.
    apply mapi_from_Forall; [|exact Hinv].
    intros j p Hp. exact Hp.
  - constructor.
Qed.

(** X4. From the initial account, as long as no buy is made with
    shares <= 0, every position is of a fund of the table and holds a
    positive number of shares, and neither its totalCost nor its avgCost is
    negative: the position of zero shares that a buy of nothing opens is
    the only way to one. *)
Theorem positions_held_at_nonnegative_cost actions :
  forallb (fun a => negb (buysNothing a)) actions = true ->
  Forall wellHeld (SimulationAccount.positions (afterAll actions initialState)).
Proof.
  intros Hbuys.
  apply (afterAll_keeps
           (fun account => Forall wellHeld (SimulationAccount.positions account))
           (fun a => negb (buysNothing a))).
  - intros a account Ha. apply negb_true_iff in Ha.
    now apply after_keeps_wellHeld.
  - exact Hbuys.
  - constructor.
Qed.

(** ** What a trade leaves alone *)

Lemma others_rewritten (f : Position.t -> Position.t) fundCode positions :
  (forall q, Position.fundCode (f q) = Position.fundCode q) ->
  filter (fun p => negb (String.eqb (Position.fundCode p) fundCode))
         (map (fun q => if String.eqb (Position.fundCode q) fundCode
                        then f q else q) positions)
  = filter (fun p => negb (String.eqb (Position.fundCode p) fundCode))
           positions.
Proof.
  intros Hf. induction positions as [|q l IH]; simpl; [reflexivity|].
  destruct (String.eqb (Position.fundCode q) fundCode) eqn:E; simpl.
  - now rewrite Hf, E.
  - now rewrite E, IH.
Qed.

Lemma others_of_others fundCode positions :
  filter (fun p => negb (String.eqb (Position.fundCode p) fundCode))
         (filter (fun p => negb (String.eqb (Position.fundCode p) fundCode))
                 positions)
  = filter (fun p => negb (String.eqb (Position.fundCode p) fundCode))
           positions.
Proof.
  induction positions as [|q l IH]; simpl; [reflexivity|].
  destruct (String.eqb (Position.fundCode q) fundCode) eqn:E; simpl;
    [exact IH | now rewrite E, IH].
Qed.

Lemma others_when_not_held fundCode positions :
  findPosition positions fundCode = None ->
  filter (fun p => negb (String.eqb (Position.fundCode p) fundCode)) positions
  = positions.
Proof.
  unfold findPosition.
  induction positions as [|q l IH]; simpl; [reflexivity|].
  destruct (String.eqb (Position.fundCode q) fundCode); [discriminate|].
  intros H. simpl. now rewrite IH.
Qed.

(** X5. A buy or a sell of a fund code leaves the positions of the other
    codes as they were, in their order. *)
Theorem trade_leaves_other_funds clock fundCode shares account :
  let others :=
    filter (fun p => negb (String.eqb (Position.fundCode p) fundCode)) in
  others (SimulationAccount.positions
            (after (BuyFund clock fundCode shares) account))
    = others (SimulationAccount.positions account) /\
  others (SimulationAccount.positions
            (after (SellFund clock fundCode shares) account))
    = others (SimulationAccount.positions account).
Proof.
  unfold after. cbn [written]. split.
  - destruct (buyFund clock fundCode shares account) as [| |acc] eqn:B;
      try reflexivity.
    apply buyFundIn_set in B as (fund & Hfund & _ & _ & _ & ->).
    destruct (findPosition _ fundCode) as [existing|].
    + now apply others_rewritten.
    + rewrite filter_app. cbn [filter Position.fundCode].
      rewrite (findFund_code _ _ _ Hfund), String.eqb_refl.
      apply app_nil_r.
  - destruct (sellFund clock fundCode shares account) as [|acc r|] eqn:S;
      try reflexivity.
    apply sellFundIn_set in S
      as (position & fund & _ & _ & _ & _ & _ & _ & _ & -> & _).
    destruct (strictEq shares (Position.shares position)).
    + apply others_of_others.
    + now apply others_rewritten.
Qed.

(** ** What a successful trade does *)

(** A buy that reaches [set] puts one transaction in front of the
    history. *)
Lemma buy_success_effects_history clock fundCode shares account account' :
  buyFund clock fundCode shares account = BuySet account' ->
  exists transaction,
    SimulationAccount.transactions account' =
      transaction :: SimulationAccount.transactions account.
Proof.
  unfold buyFund, buyFundIn. intros H.
  destruct (findFund mockFunds fundCode) as [fund|]; [|discriminate].
  destruct (gtNum _ _); [discriminate|].
  injection H as <-. cbn [SimulationAccount.transactions]. eauto.
Qed.

(** X6. A buy that reaches [set] takes shares * price from the cash and
    never leaves the cash negative, puts a buy transaction without
    sellType for these shares, this price and this amount in front of the
    history, and leaves a position for the code that holds the shares held
    before plus the shares bought. *)
Theorem buy_success_effects clock fundCode shares account account' :
  buyFund clock fundCode shares account = BuySet account' ->
  exists fund transaction position,
    findFund mockFunds fundCode = Some fund /\
    SimulationAccount.cashBalance account' ==
      SimulationAccount.cashBalance account - shares * MockFund.price fund /\
    0 <= SimulationAccount.cashBalance account' /\
    SimulationAccount.transactions account' =
      transaction :: SimulationAccount.transactions account /\
    Transaction.type transaction = buy /\
    Transaction.sellType transaction = None /\
    Transaction.fundCode transaction = fundCode /\
    Transaction.shares transaction = shares /\
    Transaction.price transaction = MockFund.price fund /\
    Transaction.totalAmount transaction = shares * MockFund.price fund /\
    findPosition (SimulationAccount.positions account') fundCode
      = Some position /\
    Position.shares position ==
      match findPosition (SimulationAccount.positions account) fundCode with
      | Some existing => Position.shares existing
      | None => 0
      end + shares.
Proof.
  intros H. pose proof H as Hset.
  apply buyFundIn_set in Hset as (fund & Hfund & Hcash & Hnew & _ & Hposs).
  unfold buyFund, buyFundIn in H. rewrite Hfund in H.
  destruct (gtNum _ _); [discriminate|].
  injection H as H. apply (f_equal SimulationAccount.transactions) in H.
  cbn [SimulationAccount.transactions] in H.
  exists fund. eexists. 
  destruct (findPosition (SimulationAccount.positions account) fundCode)
    as [existing|] eqn:Hpos.
  - eexists. split; [exact Hfund|].
    split; [rewrite Hnew; reflexivity|].
    split; [rewrite Hnew; lra|].
    split; [symmetry; exact H|].
    cbn [Transaction.type Transaction.sellType Transaction.fundCode
         Transaction.shares Transaction.price Transaction.totalAmount].
    repeat (split; [first [reflexivity | exact (findFund_code _ _ _ Hfund)]|]).
    split.
    + rewrite Hposs. apply findPosition_map_hit; [reflexivity | exact Hpos].
    + reflexivity.
  - eexists. split; [exact Hfund|].
    split; [rewrite Hnew; reflexivity|].
    split; [rewrite Hnew; lra|].
    split; [symmetry; exact H|].
    cbn [Transaction.type Transaction.sellType Transaction.fundCode
         Transaction.shares Transaction.price Transaction.totalAmount].
    repeat (split; [first [reflexivity | exact (findFund_code _ _ _ Hfund)]|]).
    split.
    + rewrite Hposs. apply findPosition_app_new; [exact Hpos|].
      exact (findFund_code _ _ _ Hfund).
    + cbn [Position.shares]. now rewrite Qplus_0_l.
Qed.

(** X7. A sell of part of a position (0 < shares < position.shares) of a
    fund of the table succeeds with the message of a partial sell: the
    position stays with shares = position.shares - shares and totalCost =
    position.totalCost * (1 - shares / position.shares), the cash grows by
    shares * price, and a sell transaction of sellType partial is put in
    front of the history. *)
Theorem partial_sell_effects clock fundCode shares account position fund :
  findPosition (SimulationAccount.positions account) fundCode = Some position ->
  findFund mockFunds fundCode = Some fund ->
  0 < shares ->
  shares < Position.shares position ->
  exists account' position' transaction,
    sellFund clock fundCode shares account =
      SellSet account' {| success := true; message := "卖出成功！" |} /\
    findPosition (SimulationAccount.positions account') fundCode
      = Some position' /\
    Position.shares position' == Position.shares position - shares /\
    Position.totalCost position' ==
      Position.totalCost position
        * (1 - shares / Position.shares position) /\
    SimulationAccount.cashBalance account' ==
      SimulationAccount.cashBalance account + shares * MockFund.price fund /\
    SimulationAccount.transactions account' =
      transaction :: SimulationAccount.transactions account /\
    Transaction.type transaction = sell /\
    Transaction.sellType transaction = Some partial /\
    Transaction.shares transaction = shares /\
    Transaction.totalAmount transaction = shares * MockFund.price fund.
Proof.
  intros Hpos Hfund Hs Hpart.
  destruct (sellFundIn_succeeds mockFunds clock fundCode shares account
              position fund Hpos Hfund Hs (Qlt_le_weak _ _ Hpart))
    as (account' & result & Hsell).
  pose proof Hsell as Hset.
  apply sellFundIn_set in Hset
    as (position0 & fund0 & Hpos0 & Hfund0 & _ & _ & Hres & Hcash & _
        & Hposs & Htx).
  rewrite Hpos in Hpos0. injection Hpos0 as <-.
  rewrite Hfund in Hfund0. injection Hfund0 as <-.
  assert (Hneq : strictEq shares (Position.shares position) = false).
  { apply strictEq_false_iff. lra. }
  rewrite Hneq in Hres, Hposs, Htx. subst result.
  exists account'. eexists. eexists.
  split; [exact Hsell|].
  split. { rewrite Hposs. apply findPosition_map_hit; [reflexivity | exact Hpos]. }
  cbn [soldSome Position.shares Position.totalCost].
  split; [reflexivity|].
  split; [reflexivity|].
  split; [rewrite Hcash; reflexivity|].
  split; [exact Htx|].
  cbn. repeat split.
Qed.

(** X8. On an account that holds no position in a fund of the table, a buy
    of shares > 0 that the cash covers followed by a sell of the same
    shares succeeds as a full sell and gives back the positions that were
    there; the cash balance is the one that was there less the amount and
    plus the amount again, (cash - shares * price) + shares * price; the
    history has two more transactions. *)
Theorem buy_then_sell_all_restores
    clock1 clock2 fundCode shares account fund :
  findPosition (SimulationAccount.positions account) fundCode = None ->
  findFund mockFunds fundCode = Some fund ->
  0 < shares ->
  shares * MockFund.price fund <= SimulationAccount.cashBalance account ->
  exists account1 account2,
    buyFund clock1 fundCode shares account = BuySet account1 /\
    sellFund clock2 fundCode shares account1 =
      SellSet account2 {| success := true; message := "清仓成功！" |} /\
    SimulationAccount.positions account2 =
      SimulationAccount.positions account /\
    SimulationAccount.cashBalance account2 ==
      SimulationAccount.cashBalance account - shares * MockFund.price fund
        + shares * MockFund.price fund /\
    List.length (SimulationAccount.transactions account2) =
      S (S (List.length (SimulationAccount.transactions account))).
Proof.
  intros Hnone Hfund Hs Hcash.
  assert (Hbuy : exists account1,
             buyFund clock1 fundCode shares account = BuySet account1).
  { unfold buyFund, buyFundIn. rewrite Hfund.
    apply gtNum_false_iff in Hcash. rewrite Hcash. eauto. }
  destruct Hbuy as (account1 & Hbuy). exists account1.
  pose proof Hbuy as Hset1.
  apply buyFundIn_set in Hset1 as (fund1 & Hfund1 & _ & Hcash1 & _ & Hposs1).
  rewrite Hfund in Hfund1. injection Hfund1 as <-.
  rewrite Hnone in Hposs1.
  destruct (buy_success_effects_history clock1 fundCode shares account account1
              Hbuy) as (tx1 & Htx1).
  set (bought :=
         Position.mk (toString (positionNow clock1))
           (MockFund.code fund) (MockFund.name fund) (MockFund.type fund)
           shares (MockFund.price fund * shares) (MockFund.price fund)
           (MockFund.price fund) 0 0 (shares * MockFund.price fund)) in *.
  assert (Hfound : findPosition (SimulationAccount.positions account1) fundCode
                   = Some bought).
  { rewrite Hposs1. apply findPosition_app_new; [exact Hnone|].
    exact (findFund_code _ _ _ Hfund). }
  destruct (sellFundIn_succeeds mockFunds clock2 fundCode shares account1
              bought fund Hfound Hfund Hs (Qle_refl _))
    as (account2 & result & Hsell).
  exists account2.
  pose proof Hsell as Hset2.
  apply sellFundIn_set in Hset2
    as (position0 & fund0 & Hpos0 & Hfund0 & _ & _ & Hres & Hcash2 & _
        & Hposs2 & Htx2).
  rewrite Hfound in Hpos0. injection Hpos0 as <-.
  rewrite Hfund in Hfund0. injection Hfund0 as <-.
  assert (Hfull : strictEq shares (Position.shares bought) = true)
    by (apply strictEq_true_iff; reflexivity).
  rewrite Hfull in Hres, Hposs2, Htx2. subst result.
  split; [exact Hbuy|]. split; [exact Hsell|].
  split.
  { rewrite Hposs2, Hposs1, filter_app. cbn [filter].
    unfold bought at 1. cbn [Position.fundCode].
    rewrite (findFund_code _ _ _ Hfund), String.eqb_refl. cbn [negb].
    rewrite app_nil_r. now apply others_when_not_held. }
  split.
  { rewrite Hcash2, Hcash1. reflexivity. }
  rewrite Htx2, Htx1. reflexivity.
Qed.

(** ** The history and the aggregates *)

Lemma after_history a account :
  a <> ResetAccount ->
  SimulationAccount.transactions (after a account)
    = SimulationAccount.transactions account \/
  exists transaction,
    SimulationAccount.transactions (after a account)
      = transaction :: SimulationAccount.transactions account.
Proof.
  unfold after. intros Ha.
  destruct a as [clock c s | clock c s | random |]; cbn [written].
  - destruct (buyFund clock c s account) as [| |acc] eqn:B; auto.
    right. now apply buy_success_effects_history in B.
  - destruct (sellFund clock c s account) as [|acc r|] eqn:S; auto.
    apply sellFundIn_set in S
      as (position & fund & _ & _ & _ & _ & _ & _ & _ & _ & ->).
    right. eauto.
  - left. reflexivity.
  - contradiction.
Qed.

(** X9. Along a sequence of actions without resetAccount the transactions
    recorded before stay, in their order, at the end of the history, and
    at most one transaction per action is put in front of them. *)
Theorem history_only_grows actions account :
  ~ In ResetAccount actions ->
  exists newer,
    SimulationAccount.transactions (afterAll actions account)
      = newer ++ SimulationAccount.transactions account /\
    (List.length newer <= List.length actions)%nat.
Proof.
  unfold afterAll. revert account.
  induction actions as [|a rest IH]; intros account Hno; simpl.
  - exists []. split; [reflexivity | apply Nat.le_refl].
  - assert (Ha : a <> ResetAccount) by (intros ->; apply Hno; now left).
    assert (Hrest : ~ In ResetAccount rest)
      by (intros Hin; apply Hno; now right).
    destruct (IH (after a account) Hrest) as (newer & Heq & Hlen).
    destruct (after_history a account Ha) as [Hsame | (tx & Hmore)].
    + exists newer. rewrite Heq, Hsame. split; [reflexivity | lia].
    + exists (newer ++ [tx]). rewrite Heq, Hmore, <- app_assoc.
      split; [reflexivity|]. rewrite length_app. simpl. lia.
Qed.

(** X10. The account an action hands to [set] has profitLoss equal to
    totalAssets - 100000 and profitLossPercent equal to
    (totalAssets - 100000) / 100000 * 100. *)
Theorem aggregates_follow_totalAssets a account account' :
  written a account = Some account' ->
  SimulationAccount.profitLoss account' ==
    SimulationAccount.totalAssets account' - 100000 /\
  SimulationAccount.profitLossPercent account' ==
    (SimulationAccount.totalAssets account' - 100000) / 100000 * 100.
Proof.
  intros H. destruct a as [clock c s | clock c s | random |]; cbn [written] in H.
  - unfold buyFund, buyFundIn in H.
    destruct (findFund mockFunds c) as [fund|]; [|discriminate].
    destruct (gtNum _ _); [discriminate|].
    injection H as <-. split; reflexivity.
  - unfold sellFund, sellFundIn in H.
    destruct (findPosition _ c) as [position|]; [|discriminate].
    destruct (leNum s 0); [discriminate|].
    destruct (gtNum s _); [discriminate|].
    destruct (findFund mockFunds c) as [fund|]; [|discriminate].
    injection H as <-. split; reflexivity.
  - injection H as <-. split; reflexivity.
  - injection H as <-. split; reflexivity.
Qed.

(** X11. With every draw of [Math.random()] in [0, 1), updatePrices
    multiplies the current price of each position by 1 + changePercent for
    a changePercent between -0.03 and 0.03, and a positive price stays
    positive. *)
Theorem updatePrices_within_3_percent random account :
  (forall i, 0 <= random i /\ random i < 1) ->
  Forall2 within3Percent
    (SimulationAccount.positions account)
    (SimulationAccount.positions (updatePrices random account)).
Proof.
  intros Hdraw. cbn [updatePrices SimulationAccount.positions]. unfold mapi.
  generalize 0%nat.
  induction (SimulationAccount.positions account) as [|p rest IH];
    intros i; simpl; constructor; [|apply IH].
  destruct (Hdraw i) as [H0 H1].
  unfold within3Percent. cbn [repriced Position.currentPrice].
  generalize dependent (random i). intros r H0 H1.
  generalize (Position.currentPrice p). intros cp. split.
  - exists ((r - 0.5) * 0.06).
    split; [lra|]. split; [lra | reflexivity].
  - intros Hcp. nra.
Qed.

(** ** formatPercent *)

Lemma append_assoc (a b c : string) :
  ((a ++ b) ++ c = a ++ b ++ c)%string.
Proof.
  induction a as [|x a IH]; simpl; [reflexivity | now rewrite IH].
Qed.

(** X12. For |value| < 10^21, formatPercent writes a sign, [+] from zero on
    and [-] below, then value with exactly two decimals, then [%]. *)
Theorem formatPercent_signed_two_decimals value :
  Qabs value < 1000000000000000000000 ->
  exists (digits : string) (d1 d2 : ascii),
    formatPercent value =
      ((if leNum 0 value then "+" else "-") ++ digits ++ "."
         ++ String d1 (String d2 "%"))%string /\
    digits <> EmptyString /\
    allDigits digits = true /\ isDigit d1 = true /\ isDigit d2 = true /\
    Qabs (inject_Z (valueOf (digits ++ String d1 (String d2 EmptyString))) / 100
          - Qabs value) <= 0.005.
Proof.
  intros Hv.
  destruct (toFixed2_two_decimals value Hv)
    as (sign & digits & d1 & d2 & Htext & Hsign & H1 & H2 & H3 & H4 & H5).
  exists digits, d1, d2. split; [|auto].
  unfold formatPercent. rewrite Htext.
  destruct Hsign as [[-> Hneg] | [-> Hpos]].
  - apply leNum_false_iff in Hneg. rewrite Hneg.
    rewrite !append_assoc. reflexivity.
  - apply leNum_true_iff in Hpos. rewrite Hpos.
    rewrite !append_assoc. reflexivity.
Qed.

(** ** The sell dialog and the trade panel *)

Lemma floor_nonneg x : 0 <= x -> 0 <= inject_Z (Qfloor x).
Proof.
  intros Hx. change 0 with (inject_Z 0). rewrite <- Zle_Qle.
  change 0%Z with (Qfloor 0). now apply Qfloor_resp_le.
Qed.

Lemma floor_whole (z : Z) : Qfloor (inject_Z z) = z.
Proof. apply Qfloor_Z. Qed.

(** X13. For a position of shares >= 0 and a fraction between 0 and 1, the
    quick selection of the dialog chooses a whole number of shares between
    0 and Math.floor(position.shares), so no more than the position holds,
    and sets the slider to it. *)
Theorem quick_select_within_position position percent state :
  0 <= Position.shares position ->
  0 <= percent ->
  percent <= 1 ->
  let chosen := SellDialog.handleQuickSelect position percent state in
  0 <= SellDialog.shares chosen /\
  SellDialog.shares chosen <= SellDialog.maxShares position /\
  SellDialog.maxShares position <= Position.shares position /\
  whole (SellDialog.shares chosen) /\
  SellDialog.sliderValue chosen = SellDialog.shares chosen.
Proof.
  clear NumberToString. intros Hheld Hp0 Hp1. cbn zeta.
  unfold SellDialog.handleQuickSelect, SellDialog.maxShares.
  cbn [SellDialog.shares SellDialog.sliderValue].
  pose proof (floor_nonneg _ Hheld) as Hmax0.
  pose proof (Qfloor_le (Position.shares position)) as Hmax.
  set (m := inject_Z (Qfloor (Position.shares position))) in *.
  assert (Hprod : 0 <= m * percent /\ m * percent <= m) by (split; nra).
  split; [apply floor_nonneg; tauto|].
  split; [apply Qle_trans with (m * percent); [apply Qfloor_le | tauto]|].
  split; [exact Hmax|].
  split; [|reflexivity].
  unfold whole. now rewrite floor_whole.
Qed.

Lemma known_code_nonempty fundCode fund :
  findFund mockFunds fundCode = Some fund ->
  exists c rest, fundCode = String c rest.
Proof.
  destruct fundCode as [|c rest]; [discriminate | eauto].
Qed.

(** X14. In the dialog opened on a position of at least one share of a fund
    of the table, the 100% selection followed by the confirmation sells
    Math.floor(position.shares) shares and closes the dialog. Where
    position.shares is whole this is a full sell and the position is gone;
    otherwise it is a partial sell and the position stays with the
    fraction, more than 0 and less than 1 share. *)
Theorem dialog_sell_all_leaves_fraction
    clock panel account position fund fundCode :
  selectedFundCode panel = Some fundCode ->
  findPosition (SimulationAccount.positions account) fundCode = Some position ->
  findFund mockFunds fundCode = Some fund ->
  1 <= Position.shares position ->
  let chosen := SellDialog.handleQuickSelect position 1 SellDialog.opened in
  let handled :=
    SellDialog.handleConfirm (handleSellConfirm clock) chosen (panel, account) in
  let account' := snd (SellDialog.world' handled) in
  SellDialog.closing handled = true /\
  (whole (Position.shares position) ->
   SellDialog.shown (SellDialog.state' handled) =
     Some {| SellDialog.type := SellDialog.success;
             SellDialog.text := "清仓成功！" |} /\
   findPosition (SimulationAccount.positions account') fundCode = None) /\
  (~ whole (Position.shares position) ->
   SellDialog.shown (SellDialog.state' handled) =
     Some {| SellDialog.type := SellDialog.success;
             SellDialog.text := "卖出成功！" |} /\
   exists position',
     findPosition (SimulationAccount.positions account') fundCode
       = Some position' /\
     Position.shares position' ==
       Position.shares position
         - inject_Z (Qfloor (Position.shares position)) /\
     0 < Position.shares position' /\ Position.shares position' < 1).
Proof.
  intros Hsel Hpos Hfund Hone. cbn zeta.
  destruct (known_code_nonempty _ _ Hfund) as (c & rest & ->).
  unfold SellDialog.handleQuickSelect, SellDialog.maxShares.
  assert (Hfloor : Qfloor (inject_Z (Qfloor (Position.shares position)) * 1)
                   = Qfloor (Position.shares position)).
  { rewrite Qmult_1_r. apply floor_whole. }
  rewrite Hfloor.
  pose proof (Qfloor_le (Position.shares position)) as Hle.
  pose proof (Qlt_floor (Position.shares position)) as Hlt.
  rewrite inject_Z_plus in Hlt. change (inject_Z 1) with 1 in Hlt.
  assert (Hz : 1 <= inject_Z (Qfloor (Position.shares position))).
  { change 1 with (inject_Z 1). rewrite <- Zle_Qle.
    change 1%Z with (Qfloor 1). now apply Qfloor_resp_le. }
  set (z := inject_Z (Qfloor (Position.shares position))) in *.
  assert (Hz0 : 0 < z) by lra.
  unfold SellDialog.handleConfirm. cbn [SellDialog.shares].
  assert (L : leNum z 0 = false) by now apply leNum_false_iff.
  rewrite L.
  unfold handleSellConfirm. rewrite Hsel.
  destruct (sellFundIn_succeeds mockFunds clock (String c rest) z account
              position fund Hpos Hfund Hz0 Hle)
    as (account' & result & Hsell).
  fold sellFund in Hsell. rewrite Hsell.
  apply sellFundIn_set in Hsell
    as (position0 & fund0 & Hpos0 & Hfund0 & _ & _ & Hres & _ & _ & Hposs & _).
  rewrite Hpos in Hpos0. injection Hpos0 as <-.
  rewrite Hfund in Hfund0. injection Hfund0 as <-.
  subst result. cbn [success message SellDialog.succeeded SellDialog.message
                     SellDialog.closing SellDialog.state' SellDialog.world'
                     SellDialog.shown snd].
  split; [reflexivity|]. split.
  - intros Hwhole.
    assert (E : strictEq z (Position.shares position) = true).
    { apply strictEq_true_iff. symmetry. exact Hwhole. }
    rewrite E in Hposs |- *. split; [reflexivity|].
    rewrite Hposs. apply findPosition_filter_out.
  - intros Hfrac.
    assert (E : strictEq z (Position.shares position) = false).
    { apply strictEq_false_iff. intros Heq. apply Hfrac.
      unfold whole. symmetry. exact Heq. }
    rewrite E in Hposs |- *. split; [reflexivity|].
    eexists. split.
    + rewrite Hposs. apply findPosition_map_hit; [reflexivity | exact Hpos].
    + cbn [soldSome Position.shares].
      apply strictEq_false_iff in E.
      split; [reflexivity|]. split; [|lra].
      apply Qle_lteq in Hle. destruct Hle as [Hlt' | Heq]; [lra | contradiction].
Qed.

Lemma handleBuy_is_a_positive_buy clock parsed panel account :
  accountAfter (handleBuy clock parsed panel account) = account \/
  exists fundCode shares,
    leNum shares 0 = false /\
    accountAfter (handleBuy clock parsed panel account)
      = after (BuyFund clock fundCode shares) account.
Proof.
  unfold handleBuy.
  destruct (selectedFundCode panel) as [[|c code]|]; auto.
  destruct (buyShares panel) as [|d digits]; auto.
  destruct parsed as [sharesNum|]; auto.
  destruct (leNum sharesNum 0) eqn:L; auto.
  right. exists (String c code), sharesNum. split; [exact L|].
  unfold after. cbn [written accountAfter].
  destruct (buyFund clock (String c code) sharesNum account); reflexivity.
Qed.

Lemma handleSellConfirm_is_a_sell clock sellShares panel account :
  snd (fst (handleSellConfirm clock sellShares (panel, account))) = account \/
  exists fundCode,
    snd (fst (handleSellConfirm clock sellShares (panel, account)))
      = after (SellFund clock fundCode sellShares) account.
Proof.
  unfold handleSellConfirm.
  destruct (selectedFundCode panel) as [[|c code]|]; auto.
  right. exists (String c code). unfold after. cbn [written].
  destruct (sellFund clock (String c code) sellShares account); reflexivity.
Qed.

(** X15. Through the trade panel and the sell dialog no position of
    shares <= 0 arises: where every position is of a fund of the table with
    shares > 0 and neither totalCost nor avgCost negative, it is so again
    after handleBuy, whatever was typed, and after the confirmation of the
    dialog, whatever was chosen. *)
Theorem panel_keeps_positions_held
    clock parsed dialog panel account :
  Forall wellHeld (SimulationAccount.positions account) ->
  Forall wellHeld
    (SimulationAccount.positions
       (accountAfter (handleBuy clock parsed panel account))) /\
  Forall wellHeld
    (SimulationAccount.positions
       (snd (SellDialog.world'
               (SellDialog.handleConfirm (handleSellConfirm clock) dialog
                                         (panel, account))))).
Proof.
  intros Hinv. split.
  - destruct (handleBuy_is_a_positive_buy clock parsed panel account)
      as [-> | (fundCode & shares & Hpos & ->)]; [exact Hinv|].
    now apply after_keeps_wellHeld.
  - unfold SellDialog.handleConfirm.
    destruct (leNum (SellDialog.shares dialog) 0); [exact Hinv|].
    assert (H : Forall wellHeld
                  (SimulationAccount.positions
                     (snd (fst (handleSellConfirm clock
                                  (SellDialog.shares dialog) (panel, account)))))).
    { destruct (handleSellConfirm_is_a_sell clock (SellDialog.shares dialog)
                  panel account) as [E | (fundCode & E)].
      - exact (eq_ind_r
                 (fun a => Forall wellHeld (SimulationAccount.positions a))
                 Hinv E).
      - refine (eq_ind_r
                  (fun a => Forall wellHeld (SimulationAccount.positions a))
                  _ E).
        now apply after_keeps_wellHeld. }
    destruct (handleSellConfirm clock (SellDialog.shares dialog) (panel, account))
      as [world1 [result|]]; cbn [fst] in H.
    + destruct (SellDialog.succeeded result); exact H.
    + exact H.
Qed.

End Ledger.

(** ** The ledger on binary64 *)



(** ** The catalog *)

(** [getFundList] never rejects: a failure of the provider is caught there
    and becomes the empty list. *)
Lemma getFundList_fulfils fetched :
  exists value,
    fst (Catalog.getFundList fetched) = Catalog.Fulfilled value /\
    (Catalog.providerFailed fetched = true -> value = Some []).
Proof.
  destruct fetched as [|[|] [funds|]|[|]]; simpl; eexists; split;
    try reflexivity; intros; try reflexivity; discriminate.
Qed.

(** On any failure of the provider, and from any store, [loadPopularFunds]
    replaces the popular funds by the empty list, recomputes the merged
    view from it, and fulfils its promise. *)
Lemma loadPopularFunds_on_failure fetched store :
  Catalog.providerFailed fetched = true ->
  let loaded := Catalog.loadPopularFunds fetched store in
  Catalog.popularFunds (Catalog.store' loaded) = [] /\
  Catalog.customFunds (Catalog.store' loaded) = Catalog.customFunds store /\
  Catalog.settled loaded = Catalog.Fulfilled tt /\
  Catalog.console loaded = ["获取基金列表失败:"%string].
Proof.
  intros Hfail.
  destruct fetched as [|[|] [funds|]|[|]]; try discriminate; simpl; auto.
Qed.

(** C7, on the code: with the default popular funds in the store and a
    provider call that fails, loadPopularFunds leaves no popular fund and
    an empty merged view; its promise is fulfilled and the failure is only
    written to the console. *)
Theorem loadPopularFunds_failure_drops_popular_funds :
  let loaded :=
    Catalog.loadPopularFunds Catalog.FetchRejected Catalog.initialStore in
  Catalog.popularFunds Catalog.initialStore = Catalog.mockFunds /\
  Catalog.popularFunds (Catalog.store' loaded) = [] /\
  Catalog.allFunds (Catalog.store' loaded) = [] /\
  Catalog.isLoading (Catalog.store' loaded) = false /\
  Catalog.settled loaded = Catalog.Fulfilled tt /\
  Catalog.console loaded = ["获取基金列表失败:"%string].
Proof.
  simpl. repeat split; reflexivity.
Qed.

(** *** The merged view *)

Lemma entry_mapSet key value m code :
  Catalog.entry code (Catalog.mapSet key value m) =
    if String.eqb key code then Some value else Catalog.entry code m.
Proof.
  unfold Catalog.entry.
  induction m as [|[k v] m IH]; simpl.
  - destruct (String.eqb key code); reflexivity.
  - destruct (String.eqb k key) eqn:K; simpl.
    + apply String.eqb_eq in K. subst k.
      destruct (String.eqb key code); reflexivity.
    + destruct (String.eqb k code) eqn:C; simpl; [|exact IH].
      apply String.eqb_eq in C. subst k. now rewrite String.eqb_sym, K.
Qed.

Lemma lookup_app code l1 l2 :
  Catalog.lookup code (l1 ++ l2) =
    match Catalog.lookup code l1 with
    | Some f => Some f
    | None => Catalog.lookup code l2
    end.
Proof.
  unfold Catalog.lookup.
  induction l1 as [|f l IH]; simpl; [reflexivity|].
  destruct (String.eqb _ _); [reflexivity | exact IH].
Qed.

Lemma entry_fold code funds m :
  Catalog.entry code
    (fold_left (fun m fund => Catalog.mapSet (Catalog.Fund.code fund) fund m)
               funds m) =
    match Catalog.lastWith code funds with
    | Some f => Some f
    | None => Catalog.entry code m
    end.
Proof.
  revert m. induction funds as [|f l IH]; intros m; simpl; [reflexivity|].
  rewrite IH, entry_mapSet. unfold Catalog.lastWith. simpl.
  rewrite lookup_app.
  destruct (Catalog.lookup code (rev l)); [reflexivity|].
  unfold Catalog.lookup. simpl.
  destruct (String.eqb _ _); reflexivity.
Qed.

Lemma keyed_mapSet f m :
  Catalog.keyed m -> Catalog.keyed (Catalog.mapSet (Catalog.Fund.code f) f m).
Proof.
  unfold Catalog.keyed.
  induction m as [|[k v] m IH]; simpl; intros H.
  - constructor; [reflexivity | constructor].
  - inversion H as [|? ? Hk Hm]; subst. simpl in Hk.
    destruct (String.eqb k (Catalog.Fund.code f)) eqn:K.
    + apply String.eqb_eq in K. constructor; [exact K | exact Hm].
    + constructor; [exact Hk | now apply IH].
Qed.

Lemma keyed_fold funds m :
  Catalog.keyed m ->
  Catalog.keyed
    (fold_left (fun m fund => Catalog.mapSet (Catalog.Fund.code fund) fund m)
               funds m).
Proof.
  revert m. induction funds as [|f l IH]; intros m H; simpl; [exact H|].
  apply IH. now apply keyed_mapSet.
Qed.

Lemma lookup_values code m :
  Catalog.keyed m ->
  Catalog.lookup code (map snd m) = Catalog.entry code m.
Proof.
  unfold Catalog.keyed, Catalog.lookup, Catalog.entry.
  induction m as [|[k v] m IH]; simpl; intros H; [reflexivity|].
  inversion H as [|? ? Hk Hm]; subst. simpl in Hk. subst k.
  destruct (String.eqb _ _); [reflexivity | now apply IH].
Qed.

(** In the merged view the fund of a code is the last custom fund of the
    code, and without one the last popular fund of the code. *)
Lemma mergedView_lookup popular custom code :
  Catalog.lookup code (Catalog.mergedView popular custom) =
    match Catalog.lastWith code custom with
    | Some f => Some f
    | None => Catalog.lastWith code popular
    end.
Proof.
  unfold Catalog.mergedView.
  rewrite lookup_values
    by (apply keyed_fold, keyed_fold; constructor).
  rewrite !entry_fold. unfold Catalog.entry. simpl.
  destruct (Catalog.lastWith code custom); [reflexivity|].
  destruct (Catalog.lastWith code popular); reflexivity.
Qed.

(** X16. getAllFunds leaves the popular and the custom funds as they are,
    stores the list it returns as allFunds, and in that list the fund of a
    code is the last custom fund with the code, or without one the last
    popular fund with the code: a custom fund overrides a popular one. *)
Theorem getAllFunds_custom_overrides_popular store code :
  let merged := snd (Catalog.getAllFunds store) in
  Catalog.popularFunds (fst (Catalog.getAllFunds store))
    = Catalog.popularFunds store /\
  Catalog.customFunds (fst (Catalog.getAllFunds store))
    = Catalog.customFunds store /\
  Catalog.allFunds (fst (Catalog.getAllFunds store)) = merged /\
  Catalog.lookup code merged =
    match Catalog.lastWith code (Catalog.customFunds store) with
    | Some f => Some f
    | None => Catalog.lastWith code (Catalog.popularFunds store)
    end.
Proof.
  cbn zeta. repeat split.
  exact (mergedView_lookup (Catalog.popularFunds store)
                           (Catalog.customFunds store) code).
Qed.

Lemma mapSet_keys key value m :
  map fst (Catalog.mapSet key value m) =
    if existsb (String.eqb key) (map fst m) then map fst m
    else map fst m ++ [key].
Proof.
  induction m as [|[k v] m IH]; simpl; [reflexivity|].
  rewrite (String.eqb_sym key k).
  destruct (String.eqb k key); simpl; [reflexivity|].
  rewrite IH. destruct (existsb _ _); reflexivity.
Qed.

Lemma firstSeen_ext seen1 seen2 l :
  (forall y, existsb (String.eqb y) seen1 = existsb (String.eqb y) seen2) ->
  Catalog.firstSeen seen1 l = Catalog.firstSeen seen2 l.
Proof.
  revert seen1 seen2. induction l as [|x r IH]; intros s1 s2 H; simpl;
    [reflexivity|].
  rewrite (H x). destruct (existsb _ s2); [now apply IH|].
  f_equal. apply IH. intros y. simpl. now rewrite H.
Qed.

Lemma firstSeen_app seen a b :
  Catalog.firstSeen seen (a ++ b) =
    Catalog.firstSeen seen a
      ++ Catalog.firstSeen (seen ++ Catalog.firstSeen seen a) b.
Proof.
  revert seen. induction a as [|x r IH]; intros s; simpl.
  - now rewrite app_nil_r.
  - destruct (existsb (String.eqb x) s); [apply IH|].
    simpl. f_equal. rewrite IH. f_equal.
    apply firstSeen_ext. intros y.
    rewrite !existsb_app. simpl.
    destruct (String.eqb y x), (existsb (String.eqb y) s),
      (existsb (String.eqb y) (Catalog.firstSeen (x :: s) r)); reflexivity.
Qed.

Lemma firstSeen_NoDup seen l :
  NoDup (Catalog.firstSeen seen l) /\
  (forall y, In y (Catalog.firstSeen seen l) ->
             existsb (String.eqb y) seen = false).
Proof.
  revert seen. induction l as [|x r IH]; intros s; simpl.
  - split; [constructor | contradiction].
  - destruct (existsb (String.eqb x) s) eqn:E; [apply IH|].
    destruct (IH (x :: s)) as [Hnd Hout]. split.
    + constructor; [|exact Hnd].
      intros Hin. apply Hout in Hin. simpl in Hin.
      now rewrite String.eqb_refl in Hin.
    + intros y [<- | Hin]; [exact E|].
      apply Hout in Hin. simpl in Hin.
      now apply orb_false_iff in Hin.
Qed.

Lemma keys_fold funds m :
  map fst
      (fold_left (fun m fund => Catalog.mapSet (Catalog.Fund.code fund) fund m)
                 funds m) =
    map fst m ++ Catalog.firstSeen (map fst m) (map Catalog.Fund.code funds).
Proof.
  revert m. induction funds as [|f l IH]; intros m; simpl.
  - now rewrite app_nil_r.
  - rewrite IH, mapSet_keys.
    destruct (existsb (String.eqb (Catalog.Fund.code f)) (map fst m));
      [reflexivity|].
    rewrite <- app_assoc. simpl. do 2 f_equal.
    apply firstSeen_ext. intros y. rewrite existsb_app. simpl.
    destruct (String.eqb y _), (existsb (String.eqb y) (map fst m));
      reflexivity.
Qed.

Lemma keyed_codes m :
  Catalog.keyed m -> map Catalog.Fund.code (map snd m) = map fst m.
Proof.
  unfold Catalog.keyed. induction 1 as [|[k v] m Hk _ IH]; simpl;
    [reflexivity|].
  simpl in Hk. now rewrite IH, Hk.
Qed.

(** X17. The list getAllFunds returns carries every code of the popular and
    the custom funds once, in the order of its first occurrence in the
    popular funds followed by the custom funds. *)
Theorem getAllFunds_codes_in_order store :
  let codes := map Catalog.Fund.code (snd (Catalog.getAllFunds store)) in
  codes =
    Catalog.distinct
      (map Catalog.Fund.code (Catalog.popularFunds store)
         ++ map Catalog.Fund.code (Catalog.customFunds store)) /\
  NoDup codes.
Proof.
  cbn zeta.
  assert (E : map Catalog.Fund.code (snd (Catalog.getAllFunds store)) =
              Catalog.distinct
                (map Catalog.Fund.code (Catalog.popularFunds store)
                   ++ map Catalog.Fund.code (Catalog.customFunds store))).
  { cbn [Catalog.getAllFunds snd].
    rewrite keyed_codes by (apply keyed_fold, keyed_fold; constructor).
    rewrite keys_fold, keys_fold. simpl.
    unfold Catalog.distinct. now rewrite firstSeen_app. }
  split; [exact E|]. rewrite E. apply firstSeen_NoDup.
Qed.

(** *** Custom funds and price refresh *)

(** X18. When the quote lookup fails, addCustomFund alerts once, fulfils
    with null and leaves the store as it is, and updateFundPrice leaves the
    store as it is. *)
Theorem quote_failure_leaves_catalog reply code store :
  (forall quote, reply <> Catalog.ReplyResponse true (Some quote)) ->
  Catalog.addedStore (Catalog.addCustomFund reply code store) = store /\
  Catalog.returned (Catalog.addCustomFund reply code store) = None /\
  Catalog.alerts (Catalog.addCustomFund reply code store)
    = ["获取基金信息失败，请检查基金代码"%string] /\
  fst (Catalog.updateFundPrice reply code store) = store.
Proof.
  intros Hfail.
  destruct reply as [|[|] [quote|]]; try (repeat split; reflexivity).
  now elim (Hfail quote).
Qed.

Lemma lookup_last code funds f :
  Catalog.Fund.code f = code ->
  Catalog.lastWith code (funds ++ [f]) = Some f.
Proof.
  intros Hcode. unfold Catalog.lastWith, Catalog.lookup.
  rewrite rev_app_distr. simpl. now rewrite Hcode, String.eqb_refl.
Qed.

(** X19. When the quote carries the code asked for and no custom fund has
    it yet, addCustomFund appends a fund of type mix with the name, value
    and day growth of the quote to the custom funds, fulfils with it, and
    the merged view then shows this fund for the code, also where a
    popular fund has the code. *)
Theorem addCustomFund_shows_quote quote code store :
  Catalog.FundQuote.code quote = code ->
  Catalog.lookup code (Catalog.customFunds store) = None ->
  let added :=
    Catalog.addCustomFund (Catalog.ReplyResponse true (Some quote)) code store in
  let newFund :=
    Catalog.Fund.mk code (Catalog.FundQuote.name quote) "mix" None
      (Catalog.FundQuote.value quote) (Catalog.FundQuote.day_growth quote) in
  Catalog.returned added = Some newFund /\
  Catalog.alerts added = [] /\
  Catalog.popularFunds (Catalog.addedStore added)
    = Catalog.popularFunds store /\
  Catalog.customFunds (Catalog.addedStore added)
    = Catalog.customFunds store ++ [newFund] /\
  Catalog.lookup code (Catalog.allFunds (Catalog.addedStore added))
    = Some newFund.
Proof.
  intros Hcode Hnew. cbn zeta.
  unfold Catalog.addCustomFund. cbn [Catalog.getFundQuote].
  rewrite Hnew, Hcode.
  cbn [Catalog.returned Catalog.alerts Catalog.addedStore].
  repeat split.
  cbn [Catalog.getAllFunds fst Catalog.allFunds Catalog.setCustomFunds
       Catalog.popularFunds Catalog.customFunds].
  etransitivity; [apply mergedView_lookup|].
  now rewrite lookup_last.
Qed.

(** X20. Where every quote carries the code asked for, adding a custom
    fund twice leaves the store as adding it once. *)
Theorem addCustomFund_idempotent reply code store :
  (forall quote,
     reply = Catalog.ReplyResponse true (Some quote) ->
     Catalog.FundQuote.code quote = code) ->
  Catalog.addedStore
    (Catalog.addCustomFund reply code
       (Catalog.addedStore (Catalog.addCustomFund reply code store)))
  = Catalog.addedStore (Catalog.addCustomFund reply code store).
Proof.
  intros Hecho.
  destruct reply as [|[|] [quote|]]; try reflexivity.
  specialize (Hecho quote eq_refl).
  unfold Catalog.addCustomFund at 2. cbn [Catalog.getFundQuote].
  destruct (Catalog.lookup code (Catalog.customFunds store)) eqn:Hold;
    cbn [Catalog.addedStore].
  - unfold Catalog.addCustomFund. cbn [Catalog.getFundQuote].
    now rewrite Hold.
  - unfold Catalog.addCustomFund. cbn [Catalog.getFundQuote].
    cbn [Catalog.getAllFunds fst Catalog.customFunds Catalog.setCustomFunds].
    rewrite lookup_app, Hold. unfold Catalog.lookup at 1.
    cbn [find Catalog.Fund.code]. rewrite Hecho, String.eqb_refl.
    reflexivity.
Qed.

(** X21. The presence check of addCustomFund is on the code asked for while
    the fund stored carries the code of the quote: where the two differ and
    no custom fund has the code asked for, every call appends the fund
    again. *)
Theorem addCustomFund_other_code_appends_again quote code store :
  Catalog.FundQuote.code quote <> code ->
  Catalog.lookup code (Catalog.customFunds store) = None ->
  let reply := Catalog.ReplyResponse true (Some quote) in
  let newFund :=
    Catalog.Fund.mk (Catalog.FundQuote.code quote)
      (Catalog.FundQuote.name quote) "mix" None
      (Catalog.FundQuote.value quote) (Catalog.FundQuote.day_growth quote) in
  Catalog.customFunds
    (Catalog.addedStore
       (Catalog.addCustomFund reply code
          (Catalog.addedStore (Catalog.addCustomFund reply code store))))
  = Catalog.customFunds store ++ [newFund; newFund].
Proof.
  intros Hother Hnew. cbn zeta.
  unfold Catalog.addCustomFund at 2. cbn [Catalog.getFundQuote].
  rewrite Hnew. cbn [Catalog.addedStore].
  unfold Catalog.addCustomFund. cbn [Catalog.getFundQuote].
  cbn [Catalog.getAllFunds fst Catalog.customFunds Catalog.setCustomFunds].
  rewrite lookup_app, Hnew. unfold Catalog.lookup at 1.
  cbn [find Catalog.Fund.code].
  apply String.eqb_neq in Hother. rewrite Hother.
  cbn [Catalog.addedStore Catalog.getAllFunds fst Catalog.customFunds
       Catalog.setCustomFunds].
  now rewrite <- app_assoc.
Qed.

Lemma refreshed_refreshOf quote code f :
  Catalog.refreshOf quote code f (Catalog.refreshed quote code f).
Proof.
  unfold Catalog.refreshOf, Catalog.sameFund, Catalog.refreshed.
  destruct (String.eqb (Catalog.Fund.code f) code) eqn:E.
  - apply String.eqb_eq in E. simpl. repeat split; auto. contradiction.
  - apply String.eqb_neq in E. repeat split; auto; contradiction.
Qed.

Lemma map_refreshed quote code funds :
  Forall2 (Catalog.refreshOf quote code) funds
          (map (Catalog.refreshed quote code) funds).
Proof.
  induction funds as [|f l IH]; simpl; constructor;
    [apply refreshed_refreshOf | exact IH].
Qed.

Lemma lastWith_refreshed quote code funds f :
  Catalog.lastWith code (map (Catalog.refreshed quote code) funds) = Some f ->
  Catalog.Fund.price f = Catalog.FundQuote.value quote /\
  Catalog.Fund.dayGrowth f = Catalog.FundQuote.day_growth quote.
Proof.
  unfold Catalog.lastWith, Catalog.lookup. intros H.
  apply find_some in H as [Hin Hcode].
  apply String.eqb_eq in Hcode.
  apply in_rev, in_map_iff in Hin as (g & <- & _).
  destruct (refreshed_refreshOf quote code g) as ((Hsame & _) & Hhit & _).
  apply Hhit. now rewrite <- Hsame.
Qed.

(** X22. With a quote, updateFundPrice gives the value and the day growth
    of the quote to every popular and custom fund of the code and leaves
    the other funds, the order and every other field as they are; in the
    merged view the fund of the code then has the value and the day growth
    of the quote. *)
Theorem updateFundPrice_refreshes quote code store :
  let store' :=
    fst (Catalog.updateFundPrice (Catalog.ReplyResponse true (Some quote))
                                 code store) in
  Forall2 (Catalog.refreshOf quote code)
          (Catalog.popularFunds store) (Catalog.popularFunds store') /\
  Forall2 (Catalog.refreshOf quote code)
          (Catalog.customFunds store) (Catalog.customFunds store') /\
  (forall f,
     Catalog.lookup code (Catalog.allFunds store') = Some f ->
     Catalog.Fund.price f = Catalog.FundQuote.value quote /\
     Catalog.Fund.dayGrowth f = Catalog.FundQuote.day_growth quote).
Proof.
  cbn zeta.
  cbn [Catalog.updateFundPrice Catalog.getFundQuote Catalog.getAllFunds fst
       Catalog.popularFunds Catalog.customFunds Catalog.allFunds].
  split; [apply map_refreshed|]. split; [apply map_refreshed|].
  intros f Hf.
  change (Catalog.lookup code
            (Catalog.mergedView
               (map (Catalog.refreshed quote code) (Catalog.popularFunds store))
               (map (Catalog.refreshed quote code) (Catalog.customFunds store)))
          = Some f) in Hf.
  rewrite mergedView_lookup in Hf.
  destruct (Catalog.lastWith code
              (map (Catalog.refreshed quote code) (Catalog.customFunds store)))
    as [g|] eqn:Hc.
  - injection Hf as <-. exact (lastWith_refreshed _ _ _ _ Hc).
  - exact (lastWith_refreshed _ _ _ _ Hf).
Qed.

(** X23. When the provider answers with a list, loadPopularFunds makes the
    converted list the popular funds, leaves the custom funds, clears the
    loading flag, and the merged view shows for a code the last custom
    fund with it, or without one the last fund of the list with it. *)
Theorem loadPopularFunds_success_view funds store code :
  let loaded :=
    Catalog.loadPopularFunds (Catalog.FetchResponse true (Some funds)) store in
  Catalog.popularFunds (Catalog.store' loaded)
    = map Catalog.convert funds /\
  Catalog.customFunds (Catalog.store' loaded) = Catalog.customFunds store /\
  Catalog.isLoading (Catalog.store' loaded) = false /\
  Catalog.settled loaded = Catalog.Fulfilled tt /\
  Catalog.lookup code (Catalog.allFunds (Catalog.store' loaded)) =
    match Catalog.lastWith code (Catalog.customFunds store) with
    | Some f => Some f
    | None => Catalog.lastWith code (map Catalog.convert funds)
    end.
Proof.
  cbn zeta. repeat split.
  exact (mergedView_lookup (map Catalog.convert funds)
                           (Catalog.customFunds store) code).
Qed.

(** X24. When the provider answers ok with a JSON body that is not an
    array, loadPopularFunds ends in its catch block: the popular funds, the
    custom funds and the merged view stay as they were, the loading flag is
    cleared, the promise is fulfilled and the failure is only written to
    the console. *)
Theorem loadPopularFunds_keeps_funds_on_other_json store :
  let loaded := Catalog.loadPopularFunds (Catalog.FetchOther true) store in
  Catalog.popularFunds (Catalog.store' loaded) = Catalog.popularFunds store /\
  Catalog.customFunds (Catalog.store' loaded) = Catalog.customFunds store /\
  Catalog.allFunds (Catalog.store' loaded) = Catalog.allFunds store /\
  Catalog.isLoading (Catalog.store' loaded) = false /\
  Catalog.settled loaded = Catalog.Fulfilled tt /\
  Catalog.console loaded = ["加载热门基金失败:"%string].
Proof.
  simpl. repeat split; reflexivity.
Qed.

(** ** Instances *)

Lemma buy_twice_avgCost_witness :
  exists account1 account2,
    buyFundIn mockFunds noon "F001" 100 initialState = BuySet account1 /\
    buyFundIn movedFunds noon "F001" 50 account1 = BuySet account2 /\
    exists position,
      findPosition (SimulationAccount.positions account2) "F001"
        = Some position /\
      Position.avgCost position == (2.456 * 100 + 3 * 50) / (100 + 50) /\
      Position.shares position == 100 + 50 /\
      Position.totalCost position == 2.456 * 100 + 3 * 50.
Proof.
  eexists. eexists.
  split; [reflexivity|]. split; [reflexivity|].
  eapply (buy_twice_avgCost_is_share_weighted
            mockFunds movedFunds noon noon "F001" 100 50 initialState _ _
            (MockFund.mk "F001" "成长优选混合" mix 2.456)
            (MockFund.mk "F001" "成长优选混合" mix 3));
    reflexivity.
Defined.



Lemma buy_beyond_cash_witness :
  SimulationAccount.cashBalance initialState < 50000 * 3.789 /\
  buyFund noon "F003" 50000 initialState = BuyAlert "现金余额不足！" /\
  written exponentText (BuyFund noon "F003" 50000) initialState = None /\
  after exponentText (BuyFund noon "F003" 50000) initialState = initialState.
Proof.
  split; [reflexivity|].
  apply (buy_beyond_cash_changes_nothing exponentText noon "F003" 50000
           initialState (MockFund.mk "F003" "科技先锋股票" stock 3.789));
    reflexivity.
Defined.

Lemma full_sell_witness :
  exists position,
    findPosition (SimulationAccount.positions heldF001) "F001"
      = Some position /\
    0 < Position.shares position /\
    exists account' transaction,
      sellFund exponentText noon "F001" (Position.shares position) heldF001 =
        SellSet account' {| success := true; message := "清仓成功！" |} /\
      after exponentText (SellFund noon "F001" (Position.shares position))
            heldF001 = account' /\
      SimulationAccount.positions account' =
        filter (fun p => negb (String.eqb (Position.fundCode p) "F001"))
               (SimulationAccount.positions heldF001) /\
      findPosition (SimulationAccount.positions account') "F001" = None /\
      Forall (fun p => Position.fundCode p <> "F001"%string)
             (SimulationAccount.positions account') /\
      SimulationAccount.transactions account' =
        transaction :: SimulationAccount.transactions heldF001 /\
      Transaction.type transaction = sell /\
      Transaction.sellType transaction = Some full /\
      Transaction.fundCode transaction = "F001"%string /\
      Transaction.shares transaction = Position.shares position.
Proof.
  exists held100. split; [reflexivity|]. split; [reflexivity|].
  apply (full_sell_removes_position exponentText noon "F001" heldF001 held100
           (MockFund.mk "F001" "成长优选混合" mix 2.456));
    reflexivity.
Defined.

(** The claim of C4 fails where the position holds no shares: the sell of
    all of them is refused and the position stays. *)
Lemma full_sell_of_empty_position_refused :
  exists position,
    findPosition (SimulationAccount.positions emptyF001) "F001"
      = Some position /\
    sellFund exponentText noon "F001" (Position.shares position) emptyF001 =
      SellRefused {| success := false; message := "卖出份额必须大于0" |} /\
    findPosition
      (SimulationAccount.positions
         (after exponentText (SellFund noon "F001" (Position.shares position))
                emptyF001)) "F001" = Some position.
Proof.
  eexists. split; [reflexivity|]. split; reflexivity.
Qed.


Lemma sell_beyond_position_witness :
  exists position,
    findPosition (SimulationAccount.positions heldF001) "F001"
      = Some position /\
    0 < 200 /\
    Position.shares position < 200 /\
    sellFund exponentText noon "F001" 200 heldF001 =
      SellRefused
        {| success := false;
           message := "卖出份额超过持仓份额！你最多可卖出 100.00 份" |} /\
    written exponentText (SellFund noon "F001" 200) heldF001 = None /\
    after exponentText (SellFund noon "F001" 200) heldF001 = heldF001 /\
    (Qabs (Position.shares position) < 1000000000000000000000 ->
     TwoDecimalsOf (toFixed2 exponentText (Position.shares position))
                   (Position.shares position)).
Proof.
  exists held100.
  split; [reflexivity|]. split; [reflexivity|]. split; [reflexivity|].
  apply (sell_beyond_position_reports_max exponentText noon "F001" 200
           heldF001 held100);
    reflexivity.
Defined.

(** The claim of C6 fails where the shares asked for exceed the position
    without being positive: the refusal is the one for shares <= 0 and names
    no amount. *)
Lemma sell_beyond_short_position_names_no_amount :
  exists position,
    findPosition (SimulationAccount.positions shortF001) "F001"
      = Some position /\
    Position.shares position < -1 /\
    sellFund exponentText noon "F001" (-1) shortF001 =
      SellRefused {| success := false; message := "卖出份额必须大于0" |} /\
    sellFund exponentText noon "F001" (-1) shortF001 <>
      SellRefused
        {| success := false;
           message :=
             ("卖出份额超过持仓份额！你最多可卖出 "
                ++ toFixed2 exponentText (Position.shares position)
                ++ " 份")%string |}.
Proof.
  eexists. split; [reflexivity|]. split; [reflexivity|].
  split; [reflexivity|]. discriminate.
Qed.

Lemma failing_sell_witness :
  (exists position,
     findPosition (SimulationAccount.positions heldF001) "F001"
       = Some position /\
     Position.shares position < 200) /\
  exists message,
    sellFund exponentText noon "F001" 200 heldF001 =
      SellRefused {| success := false; message := message |} /\
    written exponentText (SellFund noon "F001" 200) heldF001 = None /\
    after exponentText (SellFund noon "F001" 200) heldF001 = heldF001.
Proof.
  assert (H : exists position,
             findPosition (SimulationAccount.positions heldF001) "F001"
               = Some position /\
             Position.shares position < 200).
  { exists held100. split; reflexivity. }
  split; [exact H|].
  apply (failing_sell_changes_nothing exponentText noon "F001" 200 heldF001).
  right. right. exact H.
Defined.

(** ** Instances of the further properties *)

Lemma sellFund_never_throws_witness :
  sellFund exponentText noon "F001" 40
    (afterAll exponentText
       [BuyFund noon "F001" 100; UpdatePrices (fun _ => 0.25)] initialState)
    <> SellTypeError.
Proof.
  apply (sellFund_never_throws exponentText
           [BuyFund noon "F001" 100; UpdatePrices (fun _ => 0.25)]
           noon "F001" 40).
Defined.

Lemma positions_held_witness :
  let actions :=
    [BuyFund noon "F001" 100; SellFund noon "F001" 40;
     UpdatePrices (fun _ => 0.25)] in
  forallb (fun a => negb (buysNothing a)) actions = true /\
  Forall wellHeld
    (SimulationAccount.positions
       (afterAll exponentText actions initialState)).
Proof.
  cbn zeta. split; [reflexivity|].
  apply (positions_held_at_nonnegative_cost exponentText
           [BuyFund noon "F001" 100; SellFund noon "F001" 40;
            UpdatePrices (fun _ => 0.25)]).
  reflexivity.
Defined.

Lemma buy_success_effects_witness :
  buyFund noon "F001" 100 initialState = BuySet heldF001 /\
  exists fund transaction position,
    findFund mockFunds "F001" = Some fund /\
    SimulationAccount.cashBalance heldF001 ==
      SimulationAccount.cashBalance initialState - 100 * MockFund.price fund /\
    0 <= SimulationAccount.cashBalance heldF001 /\
    SimulationAccount.transactions heldF001 =
      transaction :: SimulationAccount.transactions initialState /\
    Transaction.type transaction = buy /\
    Transaction.sellType transaction = None /\
    Transaction.fundCode transaction = "F001"%string /\
    Transaction.shares transaction = 100 /\
    Transaction.price transaction = MockFund.price fund /\
    Transaction.totalAmount transaction = 100 * MockFund.price fund /\
    findPosition (SimulationAccount.positions heldF001) "F001"
      = Some position /\
    Position.shares position ==
      match findPosition (SimulationAccount.positions initialState) "F001" with
      | Some existing => Position.shares existing
      | None => 0
      end + 100.
Proof.
  split; [reflexivity|].
  apply (buy_success_effects noon "F001" 100 initialState heldF001).
  reflexivity.
Defined.

Lemma partial_sell_effects_witness :
  findPosition (SimulationAccount.positions heldF001) "F001" = Some held100 /\
  0 < 40 /\ 40 < Position.shares held100 /\
  exists account' position' transaction,
    sellFund exponentText noon "F001" 40 heldF001 =
      SellSet account' {| success := true; message := "卖出成功！" |} /\
    findPosition (SimulationAccount.positions account') "F001"
      = Some position' /\
    Position.shares position' == Position.shares held100 - 40 /\
    Position.totalCost position' ==
      Position.totalCost held100
        * (1 - 40 / Position.shares held100) /\
    SimulationAccount.cashBalance account' ==
      SimulationAccount.cashBalance heldF001 + 40 * 2.456 /\
    SimulationAccount.transactions account' =
      transaction :: SimulationAccount.transactions heldF001 /\
    Transaction.type transaction = sell /\
    Transaction.sellType transaction = Some partial /\
    Transaction.shares transaction = 40 /\
    Transaction.totalAmount transaction = 40 * 2.456.
Proof.
  split; [reflexivity|]. split; [reflexivity|]. split; [reflexivity|].
  apply (partial_sell_effects exponentText noon "F001" 40 heldF001 held100
           (MockFund.mk "F001" "成长优选混合" mix 2.456));
    reflexivity.
Defined.

Lemma buy_then_sell_all_witness :
  0 < 100 /\
  100 * 2.456 <= SimulationAccount.cashBalance initialState /\
  exists account1 account2,
    buyFund noon "F001" 100 initialState = BuySet account1 /\
    sellFund exponentText noon "F001" 100 account1 =
      SellSet account2 {| success := true; message := "清仓成功！" |} /\
    SimulationAccount.positions account2 =
      SimulationAccount.positions initialState /\
    SimulationAccount.cashBalance account2 ==
      SimulationAccount.cashBalance initialState - 100 * 2.456
        + 100 * 2.456 /\
    List.length (SimulationAccount.transactions account2) =
      S (S (List.length (SimulationAccount.transactions initialState))).
Proof.
  split; [reflexivity|]. split; [discriminate|].
  apply (buy_then_sell_all_restores exponentText noon noon "F001" 100
           initialState (MockFund.mk "F001" "成长优选混合" mix 2.456));
    first [reflexivity | discriminate].
Defined.

Lemma history_only_grows_witness :
  let actions := [BuyFund noon "F001" 100; SellFund noon "F001" 40] in
  ~ In ResetAccount actions /\
  exists newer,
    SimulationAccount.transactions (afterAll exponentText actions heldF001)
      = newer ++ SimulationAccount.transactions heldF001 /\
    (List.length newer <= List.length actions)%nat.
Proof.
  cbn zeta.
  assert (H : ~ In ResetAccount
                [BuyFund noon "F001" 100; SellFund noon "F001" 40]).
  { intros [H | [H | []]]; discriminate H. }
  split; [exact H|].
  apply (history_only_grows exponentText
           [BuyFund noon "F001" 100; SellFund noon "F001" 40] heldF001 H).
Defined.

Lemma aggregates_witness :
  written exponentText (BuyFund noon "F001" 100) initialState
    = Some heldF001 /\
  SimulationAccount.profitLoss heldF001 ==
    SimulationAccount.totalAssets heldF001 - 100000 /\
  SimulationAccount.profitLossPercent heldF001 ==
    (SimulationAccount.totalAssets heldF001 - 100000) / 100000 * 100.
Proof.
  split; [reflexivity|].
  apply (aggregates_follow_totalAssets exponentText
           (BuyFund noon "F001" 100) initialState heldF001).
  reflexivity.
Defined.

Lemma updatePrices_within_3_percent_witness :
  (forall i : nat, 0 <= 0.25 /\ 0.25 < 1) /\
  Forall2 within3Percent
    (SimulationAccount.positions heldF001)
    (SimulationAccount.positions (updatePrices (fun _ => 0.25) heldF001)).
Proof.
  assert (H : forall i : nat, 0 <= 0.25 /\ 0.25 < 1)
    by (intros i; split; [discriminate | reflexivity]).
  split; [exact H|].
  apply (updatePrices_within_3_percent (fun _ => 0.25) heldF001 H).
Defined.

Lemma formatPercent_witness :
  Qabs (-1.256) < 1000000000000000000000 /\
  exists (digits : string) (d1 d2 : ascii),
    formatPercent exponentText (-1.256) =
      ((if leNum 0 (-1.256) then "+" else "-") ++ digits ++ "."
         ++ String d1 (String d2 "%"))%string /\
    digits <> EmptyString /\
    allDigits digits = true /\ isDigit d1 = true /\ isDigit d2 = true /\
    Qabs (inject_Z (valueOf (digits ++ String d1 (String d2 EmptyString))) / 100
          - Qabs (-1.256)) <= 0.005.
Proof.
  split; [reflexivity|].
  apply (formatPercent_signed_two_decimals exponentText (-1.256)).
  reflexivity.
Defined.

Lemma quick_select_witness :
  0 <= Position.shares held2_5 /\ 0 <= 0.5 /\ 0.5 <= 1 /\
  let chosen := SellDialog.handleQuickSelect held2_5 0.5 SellDialog.opened in
  0 <= SellDialog.shares chosen /\
  SellDialog.shares chosen <= SellDialog.maxShares held2_5 /\
  SellDialog.maxShares held2_5 <= Position.shares held2_5 /\
  whole (SellDialog.shares chosen) /\
  SellDialog.sliderValue chosen = SellDialog.shares chosen.
Proof.
  split; [discriminate|]. split; [discriminate|]. split; [discriminate|].
  apply (quick_select_within_position held2_5 0.5 SellDialog.opened);
    discriminate.
Defined.

Lemma dialog_sell_all_witness :
  selectedFundCode panelF001 = Some "F001"%string /\
  findPosition (SimulationAccount.positions fractionF001) "F001"
    = Some held2_5 /\
  1 <= Position.shares held2_5 /\
  let chosen := SellDialog.handleQuickSelect held2_5 1 SellDialog.opened in
  let handled :=
    SellDialog.handleConfirm (handleSellConfirm exponentText noon) chosen
                             (panelF001, fractionF001) in
  let account' := snd (SellDialog.world' handled) in
  SellDialog.closing handled = true /\
  (whole (Position.shares held2_5) ->
   SellDialog.shown (SellDialog.state' handled) =
     Some {| SellDialog.type := SellDialog.success;
             SellDialog.text := "清仓成功！" |} /\
   findPosition (SimulationAccount.positions account') "F001" = None) /\
  (~ whole (Position.shares held2_5) ->
   SellDialog.shown (SellDialog.state' handled) =
     Some {| SellDialog.type := SellDialog.success;
             SellDialog.text := "卖出成功！" |} /\
   exists position',
     findPosition (SimulationAccount.positions account') "F001"
       = Some position' /\
     Position.shares position' ==
       Position.shares held2_5 - inject_Z (Qfloor (Position.shares held2_5)) /\
     0 < Position.shares position' /\ Position.shares position' < 1).
Proof.
  split; [reflexivity|]. split; [reflexivity|]. split; [discriminate|].
  apply (dialog_sell_all_leaves_fraction exponentText noon panelF001
           fractionF001 held2_5
           (MockFund.mk "F001" "成长优选混合" mix 2.456) "F001");
    first [reflexivity | discriminate].
Defined.

Lemma panel_keeps_positions_witness :
  Forall wellHeld (SimulationAccount.positions heldF001) /\
  Forall wellHeld
    (SimulationAccount.positions
       (accountAfter (handleBuy noon (Some 100) panelF001 heldF001))) /\
  Forall wellHeld
    (SimulationAccount.positions
       (snd (SellDialog.world'
               (SellDialog.handleConfirm (handleSellConfirm exponentText noon)
                  (SellDialog.handleSliderChange 40 SellDialog.opened)
                  (panelF001, heldF001))))).
Proof.
  assert (H : Forall wellHeld (SimulationAccount.positions heldF001)).
  { constructor; [|constructor].
    split; [discriminate|]. split; [reflexivity|]. split; discriminate. }
  split; [exact H|].
  apply (panel_keeps_positions_held exponentText noon (Some 100)
           (SellDialog.handleSliderChange 40 SellDialog.opened)
           panelF001 heldF001 H).
Defined.

Lemma quote_failure_witness :
  (forall quote : Catalog.FundQuote.t,
     Catalog.ReplyRejected <> Catalog.ReplyResponse true (Some quote)) /\
  Catalog.addedStore
    (Catalog.addCustomFund Catalog.ReplyRejected "110022" Catalog.initialStore)
    = Catalog.initialStore /\
  Catalog.returned
    (Catalog.addCustomFund Catalog.ReplyRejected "110022" Catalog.initialStore)
    = None /\
  Catalog.alerts
    (Catalog.addCustomFund Catalog.ReplyRejected "110022" Catalog.initialStore)
    = ["获取基金信息失败，请检查基金代码"%string] /\
  fst (Catalog.updateFundPrice Catalog.ReplyRejected "110022"
                               Catalog.initialStore)
    = Catalog.initialStore.
Proof.
  assert (H : forall quote : Catalog.FundQuote.t,
             Catalog.ReplyRejected <> Catalog.ReplyResponse true (Some quote))
    by (intros quote; discriminate).
  split; [exact H|].
  apply (quote_failure_leaves_catalog Catalog.ReplyRejected "110022"
           Catalog.initialStore H).
Defined.

Lemma addCustomFund_shows_quote_witness :
  Catalog.lookup "110022" (Catalog.customFunds Catalog.initialStore) = None /\
  let added :=
    Catalog.addCustomFund
      (Catalog.ReplyResponse true (Some Catalog.quote110022)) "110022"
      Catalog.initialStore in
  let newFund :=
    Catalog.Fund.mk "110022" (Catalog.FundQuote.name Catalog.quote110022)
      "mix" None (Catalog.FundQuote.value Catalog.quote110022)
      (Catalog.FundQuote.day_growth Catalog.quote110022) in
  Catalog.returned added = Some newFund /\
  Catalog.alerts added = [] /\
  Catalog.popularFunds (Catalog.addedStore added)
    = Catalog.popularFunds Catalog.initialStore /\
  Catalog.customFunds (Catalog.addedStore added)
    = Catalog.customFunds Catalog.initialStore ++ [newFund] /\
  Catalog.lookup "110022" (Catalog.allFunds (Catalog.addedStore added))
    = Some newFund.
Proof.
  split; [reflexivity|].
  apply (addCustomFund_shows_quote Catalog.quote110022 "110022"
           Catalog.initialStore);
    reflexivity.
Defined.

Lemma addCustomFund_idempotent_witness :
  let reply := Catalog.ReplyResponse true (Some Catalog.quote110022) in
  (forall quote,
     reply = Catalog.ReplyResponse true (Some quote) ->
     Catalog.FundQuote.code quote = "110022"%string) /\
  Catalog.addedStore
    (Catalog.addCustomFund reply "110022"
       (Catalog.addedStore
          (Catalog.addCustomFund reply "110022" Catalog.initialStore)))
  = Catalog.addedStore
      (Catalog.addCustomFund reply "110022" Catalog.initialStore).
Proof.
  cbn zeta.
  assert (H : forall quote,
             Catalog.ReplyResponse true (Some Catalog.quote110022)
               = Catalog.ReplyResponse true (Some quote) ->
             Catalog.FundQuote.code quote = "110022"%string)
    by (intros quote [= <-]; reflexivity).
  split; [exact H|].
  apply (addCustomFund_idempotent
           (Catalog.ReplyResponse true (Some Catalog.quote110022)) "110022"
           Catalog.initialStore H).
Defined.

Lemma addCustomFund_other_code_witness :
  Catalog.FundQuote.code Catalog.quote110022 <> " 110022"%string /\
  Catalog.lookup " 110022" (Catalog.customFunds Catalog.initialStore) = None /\
  let reply := Catalog.ReplyResponse true (Some Catalog.quote110022) in
  let newFund :=
    Catalog.Fund.mk (Catalog.FundQuote.code Catalog.quote110022)
      (Catalog.FundQuote.name Catalog.quote110022) "mix" None
      (Catalog.FundQuote.value Catalog.quote110022)
      (Catalog.FundQuote.day_growth Catalog.quote110022) in
  Catalog.customFunds
    (Catalog.addedStore
       (Catalog.addCustomFund reply " 110022"
          (Catalog.addedStore
             (Catalog.addCustomFund reply " 110022" Catalog.initialStore))))
  = Catalog.customFunds Catalog.initialStore ++ [newFund; newFund].
Proof.
  assert (H : Catalog.FundQuote.code Catalog.quote110022 <> " 110022"%string)
    by discriminate.
  split; [exact H|]. split; [reflexivity|].
  apply (addCustomFund_other_code_appends_again Catalog.quote110022 " 110022"
           Catalog.initialStore H).
  reflexivity.
Defined.
